(** * Web3 integration recipes: error classification, retry, logging,
      gas buffering, wallet connection state and transaction helpers.

    A shallow embedding of the TypeScript sources

    - [utils/contract-helpers/index.ts]
        ([GasUtils], [ErrorParser], [ErrorHandler], [ErrorLogger],
         [TransactionErrorTracker]),
    - [recipes/wallet-integration/metamask-connection/react/src/hooks/useWallet.ts]
        ([connect], [disconnect], [switchNetwork]),
    - [recipes/smart-contract-interaction/contract-calls/README.md]
        ([TransactionManager.executeTransaction], [multicall]),
    - the security guide ([SecureTransactionService.executeSecureTransaction]).

    Conventions of the embedding.

    - A JavaScript string is a [string]: a sequence of 8-bit code units, read
      as the Latin-1 range of JavaScript's UTF-16 strings.
    - A [bigint] is a [Z]; bigint division truncates towards zero ([Z.quot]).
      Numbers used as counters, chain ids and milliseconds are integers.
    - [undefined]/[null] fields are [None].
    - An awaited upstream call is an [Outcome]: it resolves with a value or
      rejects with a failure value.  Asynchronous functions are resumable
      [Task]s whose continuations take the outcome of the awaited call. *)

From Stdlib Require Import ZArith String Ascii List Bool Lia HexString.
From stdpp Require Import base option list gmap strings.

Local Open Scope string_scope.

(** ** JavaScript string and array primitives used by the sources *)

Module Js.

(** [hay.includes(needle)] *)
Fixpoint includes (hay needle : string) : bool :=
  String.prefix needle hay
  || match hay with
     | EmptyString => false
     | String _ rest => includes rest needle
     end.

(** One code unit of [toLowerCase] on Latin-1: A-Z and the accented
    capitals U+00C0..U+00DE (U+00D7, the multiplication sign, excepted)
    move up by 32. *)
Definition lowerChar (c : ascii) : ascii :=
  let n := nat_of_ascii c in
  if (65 <=? n)%nat && (n <=? 90)%nat then ascii_of_nat (n + 32)
  else if (192 <=? n)%nat && (n <=? 222)%nat && negb (n =? 215)%nat
       then ascii_of_nat (n + 32)
  else c.

(** [s.toLowerCase()] *)
Fixpoint toLowerCase (s : string) : string :=
  match s with
  | EmptyString => EmptyString
  | String c rest => String (lowerChar c) (toLowerCase rest)
  end.

(** Truthiness of an optional string: [undefined] and the empty string
    are falsy. *)
Definition truthy (s : option string) : bool :=
  match s with
  | Some (String _ _) => true
  | _ => false
  end.

(** [a || b] on optional strings. *)
Definition orElse (a : option string) (b : string) : string :=
  match a with
  | Some (String c r) => String c r
  | _ => b
  end.

(** A defaulted parameter [p = d]: the default applies to [undefined]
    only. *)
Definition defaulted {A} (a : option A) (d : A) : A :=
  match a with
  | Some x => x
  | None => d
  end.

(** [arr.slice(start)] for an integer [start]: a negative [start] counts
    from the end, and the result is clamped to the array. *)
Definition slice {A} (start : Z) (arr : list A) : list A :=
  let len := Z.of_nat (length arr) in
  let k := if (start <? 0)%Z then Z.max (len + start) 0 else Z.min start len in
  drop (Z.to_nat k) arr.

(** [arr.slice(start, end)] for natural [start] and [end]. *)
Definition slice2 {A} (start stop : nat) (arr : list A) : list A :=
  drop start (take stop arr).

(** [n.toString(16)] for an integer [n]. *)
Definition toString16 (n : Z) : string :=
  match n with
  | Z0 => "0"
  | Zpos p => HexString.Raw.of_pos p EmptyString
  | Zneg p => "-" ++ HexString.Raw.of_pos p EmptyString
  end.

(** A line terminator among 8-bit code units: LF or CR.  The [.] of a
    regular expression matches every other code unit. *)
Definition isLineTerminator (c : ascii) : bool :=
  (nat_of_ascii c =? 10)%nat || (nat_of_ascii c =? 13)%nat.

End Js.

(** An awaited call either resolves or rejects. *)
Inductive Outcome (A E : Type) : Type :=
| Resolved (value : A)
| Rejected (failure : E).
Arguments Resolved {A E} value.
Arguments Rejected {A E} failure.

(** ** Error taxonomy ([utils/contract-helpers/index.ts], error handling) *)

Module Errors.

Inductive ErrorType : Type :=
| USER_REJECTED
| INSUFFICIENT_FUNDS
| NETWORK_ERROR
| CONTRACT_ERROR
| VALIDATION_ERROR
| UNKNOWN_ERROR.

#[export] Instance ErrorType_eq_dec : EqDecision ErrorType.
Proof. solve_decision. Defined.

(** [error.code] is a number or a string. *)
Inductive ErrorCode : Type :=
| CodeNum (n : Z)
| CodeStr (s : string).

#[export] Instance ErrorCode_eq_dec : EqDecision ErrorCode.
Proof. solve_decision. Defined.

(** The fields the classifier reads from an upstream failure object. *)
Record JsError : Type := mkJsError {
  code : option ErrorCode;
  message : option string;
  reason : option string
}.

Record Web3Error : Type := mkWeb3Error {
  type : ErrorType;
  w3message : string;
  w3code : option ErrorCode;
  originalError : option JsError
}.

(** What an operation can throw: an already classified [Web3Error], or
    any other failure object. *)
Inductive Failure : Type :=
| ThrownWeb3 (w : Web3Error)
| ThrownOther (e : JsError).

(** [error.code === c] *)
Definition codeIs (e : JsError) (c : ErrorCode) : bool :=
  bool_decide (code e = Some c).

(** [error.message?.includes(s)] as a condition. *)
Definition messageIncludes (e : JsError) (s : string) : bool :=
  match message e with
  | Some m => Js.includes m s
  | None => false
  end.

(** The specific error classes, with their default messages. *)
Definition UserRejectedError (msg : option string) (orig : JsError) : Web3Error :=
  mkWeb3Error USER_REJECTED
    (Js.defaulted msg "Transaction rejected by user")
    (Some (CodeNum 4001)) (Some orig).

Definition InsufficientFundsError (msg : option string) (orig : JsError) : Web3Error :=
  mkWeb3Error INSUFFICIENT_FUNDS
    (Js.defaulted msg "Insufficient funds for transaction")
    (Some (CodeStr "INSUFFICIENT_FUNDS")) (Some orig).

Definition NetworkError (msg : option string) (orig : JsError) : Web3Error :=
  mkWeb3Error NETWORK_ERROR
    (Js.defaulted msg "Network connection failed")
    (Some (CodeStr "NETWORK_ERROR")) (Some orig).

Definition ContractError (msg : string) (orig : JsError) : Web3Error :=
  mkWeb3Error CONTRACT_ERROR msg (Some (CodeStr "CONTRACT_ERROR")) (Some orig).

Definition ValidationError (msg : string) (orig : JsError) : Web3Error :=
  mkWeb3Error VALIDATION_ERROR msg (Some (CodeStr "VALIDATION_ERROR")) (Some orig).

(** *** [ErrorParser.extractRevertReason]: [message.match(/revert (.+)'/)] *)

(** The longest prefix of code units that [.] matches. *)
Fixpoint dotRun (s : string) : string :=
  match s with
  | EmptyString => EmptyString
  | String c rest =>
      if Js.isLineTerminator c then EmptyString else String c (dotRun rest)
  end.

(** The text before the last apostrophe of [s], if [s] has one. *)
Fixpoint uptoLastQuote (s : string) : option string :=
  match s with
  | EmptyString => None
  | String c rest =>
      match uptoLastQuote rest with
      | Some p => Some (String c p)
      | None => if Ascii.eqb c "'" then Some EmptyString else None
      end
  end.

(** A match of the pattern anchored at the start of [s]: the literal
    [revert ], then the greedy group [(.+)] backed off to the last
    apostrophe of its line.  The group is not empty. *)
Definition matchRevertAt (s : string) : option string :=
  if String.prefix "revert " s then
    match dotRun (String.substring 7 (String.length s - 7) s) with
    | String c rest =>
        match uptoLastQuote rest with
        | Some p => Some (String c p)
        | None => None
        end
    | EmptyString => None
    end
  else None.

(** The leftmost match; its value is the captured group. *)
Fixpoint matchRevert (s : string) : option string :=
  match matchRevertAt s with
  | Some r => Some r
  | None =>
      match s with
      | EmptyString => None
      | String _ rest => matchRevert rest
      end
  end.

Definition extractRevertReason (message : string) : string :=
  match matchRevert message with
  | Some r => r
  | None => "Unknown reason"
  end.

(** *** [ErrorParser.parse] *)

Definition parseOther (error : JsError) : Web3Error :=
  (* User rejected transaction *)
  if codeIs error (CodeNum 4001) || codeIs error (CodeStr "ACTION_REJECTED") then
    UserRejectedError (message error) error
  (* Insufficient funds *)
  else if codeIs error (CodeStr "INSUFFICIENT_FUNDS") then
    InsufficientFundsError (message error) error
  (* Network errors *)
  else if codeIs error (CodeStr "NETWORK_ERROR") || messageIncludes error "network" then
    NetworkError (message error) error
  (* Contract reverted *)
  else if Js.truthy (reason error) || messageIncludes error "revert" then
    let revertReason :=
      Js.orElse (reason error)
        (extractRevertReason (Js.defaulted (message error) EmptyString)) in
    ContractError ("Contract reverted: " ++ revertReason) error
  (* Gas estimation failed *)
  else if codeIs error (CodeStr "UNPREDICTABLE_GAS_LIMIT") then
    ContractError "Transaction would fail - check parameters" error
  (* Generic fallback *)
  else
    mkWeb3Error UNKNOWN_ERROR
      (Js.orElse (message error) "An unexpected error occurred")
      (code error) (Some error).

Definition parse (error : Failure) : Web3Error :=
  match error with
  | ThrownWeb3 w => w
  | ThrownOther e => parseOther e
  end.

(** *** [TransactionErrorTracker.isRetryable] *)

Definition retryableTypes : list ErrorType := [NETWORK_ERROR; UNKNOWN_ERROR].
Definition retryableMessages : list string := ["network"; "timeout"; "connection"].

Definition isRetryable (error : Web3Error) : bool :=
  (* Network errors are retryable *)
  if bool_decide (type error ∈ retryableTypes) then true
  (* Some contract errors might be retryable *)
  else if bool_decide (type error = CONTRACT_ERROR) then
    existsb (fun msg => Js.includes (Js.toLowerCase (w3message error)) msg)
            retryableMessages
  else false.

(** *** The classifier's signals, and the spec's priority order

    The conditions [ErrorParser.parse] tests, named after the signal they
    stand for. *)

Definition userDeclined (e : JsError) : bool :=
  codeIs e (CodeNum 4001) || codeIs e (CodeStr "ACTION_REJECTED").
Definition balanceShortfall (e : JsError) : bool :=
  codeIs e (CodeStr "INSUFFICIENT_FUNDS").
Definition carriesRevertReason (e : JsError) : bool := Js.truthy (reason e).
Definition messageMatchesRevert (e : JsError) : bool := messageIncludes e "revert".
Definition transportFailure (e : JsError) : bool :=
  codeIs e (CodeStr "NETWORK_ERROR") || messageIncludes e "network".
Definition estimateFailed (e : JsError) : bool :=
  codeIs e (CodeStr "UNPREDICTABLE_GAS_LIMIT").

(** The seven rules as the specification words them (its section 4.3):
    user declined, balance shortfall, carried revert reason,
    message-extracted revert reason, transport failure, failed resource
    estimate (a validation error), unknown; first match wins.  This is
    the specification's order, to be compared with [parse]. *)
Definition specKind (e : JsError) : ErrorType :=
  if userDeclined e then USER_REJECTED
  else if balanceShortfall e then INSUFFICIENT_FUNDS
  else if carriesRevertReason e then CONTRACT_ERROR
  else if messageMatchesRevert e then CONTRACT_ERROR
  else if transportFailure e then NETWORK_ERROR
  else if estimateFailed e then VALIDATION_ERROR
  else UNKNOWN_ERROR.

(** The order in which [ErrorParser.parse] tests the signals of a failure
    that is not yet classified: user declined, balance shortfall, transport
    failure, revert, failed estimate, unknown. *)
Definition codeKind (e : JsError) : ErrorType :=
  if userDeclined e then USER_REJECTED
  else if balanceShortfall e then INSUFFICIENT_FUNDS
  else if transportFailure e then NETWORK_ERROR
  else if carriesRevertReason e || messageMatchesRevert e then CONTRACT_ERROR
  else if estimateFailed e then CONTRACT_ERROR
  else UNKNOWN_ERROR.

(** Where the two orders can part: nothing declined and no shortfall, and
    either a revert signal together with a transport signal, or a failed
    estimate with neither. *)
Definition ordersPart (e : JsError) : bool :=
  negb (userDeclined e) && negb (balanceShortfall e)
  && (if carriesRevertReason e || messageMatchesRevert e
      then transportFailure e
      else negb (transportFailure e) && estimateFailed e).

(** The message test of [isRetryable] on contract errors. *)
Definition mentionsTransport (msg : string) : bool :=
  existsb (fun pat => Js.includes (Js.toLowerCase msg) pat) retryableMessages.

(** *** [ErrorHandler.handleWithRetry] *)

(** How a call of [handleWithRetry] ends: it returns the operation's
    value, throws a classified error, or (when the loop is left with no
    attempt made) throws the unset [lastError]. *)
Inductive Completion (T : Type) : Type :=
| Returned (value : T)
| Threw (error : Web3Error)
| ThrewUndefined.
Arguments Returned {T} value.
Arguments Threw {T} error.
Arguments ThrewUndefined {T}.

(** What the handler does to the outside world, in order. *)
Inductive Event (T : Type) : Type :=
| Invoked (outcome : Outcome T Failure)
| Waited (ms : Z).
Arguments Invoked {T} outcome.
Arguments Waited {T} ms.

Section Handler.
Context {World T : Type}.
(** [operation()], run in a world and settled. *)
Variable operation : World -> Outcome T Failure * World.
(** [this.wait(ms)]: time passes. *)
Variable wait : Z -> World -> World.
(** The optional [shouldRetry] predicate. *)
Variable shouldRetry : option (Web3Error -> bool).
Variable maxRetries : nat.
Variable retryDelay : Z.

(** [shouldRetry && !shouldRetry(lastError)] *)
Definition vetoed (lastError : Web3Error) : bool :=
  match shouldRetry with
  | Some p => negb (p lastError)
  | None => false
  end.

(** The [for] loop from [attempt] on.  [fuel] bounds the number of
    iterations; [lastError] is the variable of that name. *)
Fixpoint retryLoop (fuel attempt : nat) (lastError : option Web3Error)
    (w : World) : option (Completion T * list (Event T) * World) :=
  match fuel with
  | O => None
  | S fuel' =>
      if (attempt <=? maxRetries)%nat then
        let '(o, w1) := operation w in
        match o with
        | Resolved v => Some (Returned v, [Invoked o], w1)
        | Rejected error =>
            let lastError := parse error in
            (* Don't retry user-rejected errors *)
            if bool_decide (type lastError = USER_REJECTED) then
              Some (Threw lastError, [Invoked o], w1)
            (* Custom retry logic *)
            else if vetoed lastError then
              Some (Threw lastError, [Invoked o], w1)
            (* Don't retry on last attempt *)
            else if (attempt =? maxRetries)%nat then
              Some (Threw lastError, [Invoked o], w1)
            else
              (* Wait before retrying *)
              let ms := (retryDelay * 2 ^ Z.of_nat attempt)%Z in
              match retryLoop fuel' (S attempt) (Some lastError) (wait ms w1) with
              | Some (c, evs, w2) => Some (c, Invoked o :: Waited ms :: evs, w2)
              | None => None
              end
        end
      else
        (* throw lastError! *)
        Some (match lastError with
              | Some e => Threw e
              | None => ThrewUndefined
              end, [], w)
  end.

Definition handleWithRetry (w : World)
    : option (Completion T * list (Event T) * World) :=
  retryLoop (S (S maxRetries)) 0 None w.

End Handler.

(** [new ErrorHandler(maxRetries = 3, retryDelay = 1000)] *)
Definition defaultMaxRetries : nat := 3.
Definition defaultRetryDelay : Z := 1000.

(** Number of times the operation was invoked, and the waits, in order. *)
Fixpoint invocations {T} (evs : list (Event T)) : nat :=
  match evs with
  | [] => 0
  | Invoked _ :: rest => S (invocations rest)
  | Waited _ :: rest => invocations rest
  end.

Fixpoint waits {T} (evs : list (Event T)) : list Z :=
  match evs with
  | [] => []
  | Invoked _ :: rest => waits rest
  | Waited ms :: rest => ms :: waits rest
  end.

(** The events of a run whose invocations settled as [outcomes], the first
    of them being attempt number [attempt]: a wait of
    [retryDelay * 2 ^ attempt] separates an attempt from the next. *)
Fixpoint schedule {T} (retryDelay : Z) (attempt : nat)
    (outcomes : list (Outcome T Failure)) : list (Event T) :=
  match outcomes with
  | [] => []
  | o :: rest =>
      match rest with
      | [] => [Invoked o]
      | _ :: _ =>
          Invoked o :: Waited (retryDelay * 2 ^ Z.of_nat attempt)
            :: schedule retryDelay (S attempt) rest
      end
  end.

(** An attempt after which the loop may go on: it failed, the failure is not
    a user rejection, and the predicate, if there is one, allows a retry. *)
Definition goesOn {T} (shouldRetry : option (Web3Error -> bool))
    (o : Outcome T Failure) : bool :=
  match o with
  | Resolved _ => false
  | Rejected f =>
      negb (bool_decide (type (parse f) = USER_REJECTED))
      && negb (vetoed shouldRetry (parse f))
  end.

(** How the call ends when its last invocation settled as [o]. *)
Definition completionOf {T} (o : Outcome T Failure) : Completion T :=
  match o with
  | Resolved v => Returned v
  | Rejected f => Threw (parse f)
  end.

(** *** [ErrorLogger] *)

Record LogEntry : Type := mkLogEntry {
  timestamp : Z;
  error : Web3Error;
  context : option string
}.

(** [log(error, context)] at time [now], on the [logs] array.  The
    console and analytics branches do not touch [logs]. *)
Definition log (now : Z) (err : Web3Error) (ctx : option string)
    (logs : list LogEntry) : list LogEntry :=
  let logs := (logs ++ [mkLogEntry now err ctx])%list in
  (* Keep only last 100 errors *)
  if (100 <? length logs)%nat then Js.slice (-100) logs else logs.

(** [getRecentErrors(limit = 10)] *)
Definition getRecentErrors (limit : option Z) (logs : list LogEntry) : list LogEntry :=
  Js.slice (- Js.defaulted limit 10%Z) logs.

Definition clearLogs (logs : list LogEntry) : list LogEntry := [].

(** The logger's operations, to run sequences of them. *)
Inductive LoggerOp : Type :=
| OpLog (now : Z) (err : Web3Error) (ctx : option string)
| OpClear.

Definition runOp (logs : list LogEntry) (op : LoggerOp) : list LogEntry :=
  match op with
  | OpLog now err ctx => log now err ctx logs
  | OpClear => clearLogs logs
  end.

(** A fresh logger has [logs = []]. *)
Definition runOps (ops : list LoggerOp) : list LogEntry :=
  fold_left runOp ops [].

End Errors.

(** ** Gas estimation ([GasUtils.estimateGasWithBuffer]) *)

Module GasUtils.

(** The error the [catch] branch throws. *)
Definition estimationFailed : string := "Unable to estimate gas for transaction".

(** [estimateGasWithBuffer(contract, method, args, bufferPercent = 20)],
    given how [contract[method].estimateGas(...args)] settled. *)
Definition estimateGasWithBuffer {E} (estimateGas : Outcome Z E)
    (bufferPercent : option Z) : Outcome Z string :=
  match estimateGas with
  | Resolved gasEstimate =>
      Resolved (Z.quot (gasEstimate * (100 + Js.defaulted bufferPercent 20)) 100)%Z
  | Rejected _ => Rejected estimationFailed
  end.

End GasUtils.

(** ** Wallet connection state ([useWallet.ts]) *)

Module Wallet.
Import Errors.

(** [new ethers.BrowserProvider(window.ethereum)] *)
Inductive BrowserProvider : Type := NewBrowserProvider.

(** What [provider.getSigner()] resolves with. *)
Record JsonRpcSigner : Type := mkSigner { signerAddress : string }.

Record WalletState : Type := mkWalletState {
  address : option string;
  provider : option BrowserProvider;
  signer : option JsonRpcSigner;
  chainId : option Z;
  isConnecting : bool;
  error : option string
}.

(** The state [useState] starts from. *)
Definition initialState : WalletState :=
  mkWalletState None None None None false None.

(** [Partial<WalletState>]: a field is [Some v] when the update object
    has that key. *)
Record Updates : Type := mkUpdates {
  setAddress : option (option string);
  setProvider : option (option BrowserProvider);
  setSigner : option (option JsonRpcSigner);
  setChainId : option (option Z);
  setIsConnecting : option bool;
  setError : option (option string)
}.

Definition noUpdates : Updates := mkUpdates None None None None None None.

(** [{ ...prev, ...updates }] *)
Definition merge (prev : WalletState) (updates : Updates) : WalletState :=
  mkWalletState
    (Js.defaulted (setAddress updates) (address prev))
    (Js.defaulted (setProvider updates) (provider prev))
    (Js.defaulted (setSigner updates) (signer prev))
    (Js.defaulted (setChainId updates) (chainId prev))
    (Js.defaulted (setIsConnecting updates) (isConnecting prev))
    (Js.defaulted (setError updates) (error prev)).

(** Calls that leave the hook for the wallet or the network client. *)
Inductive Request : Type :=
| EthRequestAccounts
| WalletSwitchEthereumChain (chainIdHex : string)
| GetSigner
| GetNetwork.

#[export] Instance Request_eq_dec : EqDecision Request.
Proof. solve_decision. Defined.

(** The hook and what surrounds it: the React state, [localStorage],
    whether [window.ethereum] is there, and the upstream calls issued so
    far (oldest first). *)
Record Hook : Type := mkHook {
  state : WalletState;
  localStorage : gmap string string;
  ethereum : bool;
  requests : list Request
}.

Definition initialHook (hasEthereum : bool) : Hook :=
  mkHook initialState ∅ hasEthereum [].

(** [updateState(updates)]: [setState(prev => ({ ...prev, ...updates }))] *)
Definition updateState (updates : Updates) (h : Hook) : Hook :=
  mkHook (merge (state h) updates) (localStorage h) (ethereum h) (requests h).

Definition clearError (h : Hook) : Hook :=
  updateState (mkUpdates None None None None None (Some None)) h.

Definition setItem (key value : string) (h : Hook) : Hook :=
  mkHook (state h) (<[key := value]> (localStorage h)) (ethereum h) (requests h).

Definition removeItem (key : string) (h : Hook) : Hook :=
  mkHook (state h) (delete key (localStorage h)) (ethereum h) (requests h).

Definition issue (r : Request) (h : Hook) : Hook :=
  mkHook (state h) (localStorage h) (ethereum h) (requests h ++ [r])%list.

(** [new Error(msg)] *)
Definition Error (msg : string) : JsError := mkJsError None (Some msg) None.

Definition getErrorMessage (error : JsError) : string :=
  if codeIs error (CodeNum 4001) then "Connection rejected by user"
  else if codeIs error (CodeNum (-32002)) then "Connection request already pending"
  else Js.orElse (message error) "An unexpected error occurred".

(** An asynchronous function after its synchronous prefix: finished, or
    suspended at an [await] with the continuation that runs, on the hook
    as it then is, once the awaited call settles. *)
#[warnings="-register-all"]
Inductive Task : Type :=
| Finished
| AwaitAccounts (k : Outcome (list string) JsError -> Hook -> Hook * Task)
| AwaitSwitch (k : Outcome unit JsError -> Hook -> Hook * Task)
| AwaitSigner (k : Outcome JsonRpcSigner JsError -> Hook -> Hook * Task)
| AwaitNetwork (k : Outcome Z JsError -> Hook -> Hook * Task).

(** *** [connect] *)

(** The [catch] block of [connect]. *)
Definition connectFailed (error : JsError) (h : Hook) : Hook * Task :=
  (updateState
     (mkUpdates None None None None (Some false) (Some (Some (getErrorMessage error)))) h,
   Finished).

Definition connect (h : Hook) : Hook * Task :=
  let h := clearError h in
  let h := updateState (mkUpdates None None None None (Some true) None) h in
  if negb (ethereum h) then
    connectFailed (Error "MetaMask not detected. Please install MetaMask.") h
  else
    (issue EthRequestAccounts h,
     AwaitAccounts (fun o h =>
       match o with
       | Rejected e => connectFailed e h
       | Resolved [] => connectFailed (Error "No accounts found") h
       | Resolved (account0 :: _) =>
           let provider := NewBrowserProvider in
           (issue GetSigner h,
            AwaitSigner (fun o h =>
              match o with
              | Rejected e => connectFailed e h
              | Resolved signer =>
                  (issue GetNetwork h,
                   AwaitNetwork (fun o h =>
                     match o with
                     | Rejected e => connectFailed e h
                     | Resolved networkChainId =>
                         let h :=
                           updateState
                             (mkUpdates (Some (Some account0)) (Some (Some provider))
                                (Some (Some signer)) (Some (Some networkChainId))
                                (Some false) None) h in
                         (* Store connection state *)
                         (setItem "walletConnected" "true" h, Finished)
                     end))
              end))
       end)).

(** *** [disconnect] *)

Definition disconnect (h : Hook) : Hook :=
  let h :=
    updateState
      (mkUpdates (Some None) (Some None) (Some None) (Some None) None (Some None)) h in
  removeItem "walletConnected" h.

(** *** [switchNetwork] *)

(** The [catch] block of [switchNetwork]. *)
Definition switchFailed (error : JsError) (h : Hook) : Hook * Task :=
  let msg :=
    if codeIs error (CodeNum 4902) then "Network not added to MetaMask"
    else if codeIs error (CodeNum 4001) then "Network switch rejected by user"
    else "Failed to switch network" in
  (updateState (mkUpdates None None None None None (Some (Some msg))) h, Finished).

Definition switchNetwork (targetChainId : Z) (h : Hook) : Hook * Task :=
  let h := clearError h in
  if negb (ethereum h) then switchFailed (Error "MetaMask not available") h
  else
    (issue (WalletSwitchEthereumChain ("0x" ++ Js.toString16 targetChainId)) h,
     AwaitSwitch (fun o h =>
       match o with
       | Rejected e => switchFailed e h
       | Resolved _ =>
           (* Update chain ID after successful switch *)
           (issue GetNetwork h,
            AwaitNetwork (fun o h =>
              match o with
              | Rejected e => switchFailed e h
              | Resolved networkChainId =>
                  (updateState
                     (mkUpdates None None None (Some (Some networkChainId)) None None) h,
                   Finished)
              end))
       end)).

(** *** Wallet events *)

Definition handleAccountsChanged (accounts : list string) (h : Hook) : Hook :=
  match accounts with
  | [] => disconnect h
  | account0 :: _ =>
      updateState (mkUpdates (Some (Some account0)) None None None None None) h
  end.

Definition handleDisconnect (h : Hook) : Hook := disconnect h.

(** *** Running a task *)

(** How each kind of upstream call settles. *)
Record Upstream : Type := mkUpstream {
  accountsReply : Outcome (list string) JsError;
  switchReply : Outcome unit JsError;
  signerReply : Outcome JsonRpcSigner JsError;
  networkReply : Outcome Z JsError
}.

(** Run a suspended function to its end, nothing else touching the hook
    in between. *)
Fixpoint run (up : Upstream) (t : Task) (h : Hook) : Hook :=
  match t with
  | Finished => h
  | AwaitAccounts k => let '(h', t') := k (accountsReply up) h in run up t' h'
  | AwaitSwitch k => let '(h', t') := k (switchReply up) h in run up t' h'
  | AwaitSigner k => let '(h', t') := k (signerReply up) h in run up t' h'
  | AwaitNetwork k => let '(h', t') := k (networkReply up) h in run up t' h'
  end.

Definition runToEnd (up : Upstream) (started : Hook * Task) : Hook :=
  run up (snd started) (fst started).

(** Every step of a task, whenever it is resumed and on whatever hook,
    relates the hook before the step to the hook after it by [R]. *)
Inductive EveryStep (R : Hook -> Hook -> Prop) : Task -> Prop :=
| every_finished : EveryStep R Finished
| every_accounts k :
    (forall o h, R h (fst (k o h))) ->
    (forall o h, EveryStep R (snd (k o h))) ->
    EveryStep R (AwaitAccounts k)
| every_switch k :
    (forall o h, R h (fst (k o h))) ->
    (forall o h, EveryStep R (snd (k o h))) ->
    EveryStep R (AwaitSwitch k)
| every_signer k :
    (forall o h, R h (fst (k o h))) ->
    (forall o h, EveryStep R (snd (k o h))) ->
    EveryStep R (AwaitSigner k)
| every_network k :
    (forall o h, R h (fst (k o h))) ->
    (forall o h, EveryStep R (snd (k o h))) ->
    EveryStep R (AwaitNetwork k).

(** Two hooks that differ at most in [chainId], [error] and the log of
    upstream calls. *)
Definition sameIdentity (a b : Hook) : Prop :=
  address (state b) = address (state a)
  /\ provider (state b) = provider (state a)
  /\ signer (state b) = signer (state a)
  /\ isConnecting (state b) = isConnecting (state a)
  /\ localStorage b = localStorage a.

(** Number of account requests sent to the wallet. *)
Definition accountRequests (h : Hook) : nat :=
  length (filter (fun r => r = EthRequestAccounts) (requests h)).

End Wallet.


(** ** Transactions ([contract-calls/README.md] and the security guide) *)

Module Transactions.
Import Errors.

Inductive Status : Type := idle | pending | success | error.

(** The one field of [ethers.TransactionReceipt] the sources read:
    [status], 1 for success and 0 for a revert (or [null]). *)
Record TransactionReceipt : Type := mkReceipt { status : option Z }.

(** What sending resolves with: the response's [hash]. *)
Record TransactionResponse : Type := mkResponse { responseHash : string }.

Record TransactionState : Type := mkTxState {
  txHash : option string;
  txStatus : Status;
  txError : option string;
  txReceipt : option TransactionReceipt
}.

(** [private state: TransactionState = { status: 'idle' }] *)
Definition idleState : TransactionState := mkTxState None idle None None.

(** [new Error(msg)] *)
Definition Error (msg : string) : JsError := mkJsError None (Some msg) None.

(** *** [TransactionManager] *)

(** [TransactionManager.parseError] *)
Definition parseError (e : JsError) : string :=
  if codeIs e (CodeStr "USER_REJECTED") then "Transaction rejected by user"
  else if codeIs e (CodeStr "INSUFFICIENT_FUNDS") then "Insufficient funds"
  else match reason e with
       | Some (String c r) => String c r
       | _ => "Transaction failed"
       end.

(** How the three awaited calls of one execution settle.  Sending is
    given the gas limit it is called with. *)
Record Chain : Type := mkChain {
  estimateGas : Outcome Z JsError;
  send : Z -> Outcome TransactionResponse JsError;
  wait : Outcome TransactionReceipt JsError
}.

(** One execution: the state it leaves, the states handed to the
    registered callbacks (one per [updateState], in order), the gas limit
    it submitted if it got that far, and how the call settles. *)
Record Execution : Type := mkExecution {
  finalState : TransactionState;
  notified : list TransactionState;
  submittedGasLimit : option Z;
  settled : Outcome TransactionReceipt JsError
}.

(** The [catch] block: record the error, rethrow it. *)
Definition failWith (e : JsError) (st : TransactionState)
    (seen : list TransactionState) (gasLimit : option Z) : Execution :=
  let st' := mkTxState (txHash st) error (Some (parseError e)) (txReceipt st) in
  mkExecution st' (seen ++ [st'])%list gasLimit (Rejected e).

Definition executeTransaction (chain : Chain) (st0 : TransactionState) : Execution :=
  (* this.updateState({ status: 'pending', error: undefined }) *)
  let st1 := mkTxState (txHash st0) pending None (txReceipt st0) in
  (* Estimate gas *)
  match estimateGas chain with
  | Rejected e => failWith e st1 [st1] None
  | Resolved gasEstimate =>
      let gasLimit := Z.quot (gasEstimate * 120) 100 in
      (* Send transaction *)
      match send chain gasLimit with
      | Rejected e => failWith e st1 [st1] (Some gasLimit)
      | Resolved transaction =>
          let st2 :=
            mkTxState (Some (responseHash transaction)) pending (txError st1)
              (txReceipt st1) in
          (* Wait for confirmation *)
          match wait chain with
          | Rejected e => failWith e st2 [st1; st2] (Some gasLimit)
          | Resolved receipt =>
              let st3 := mkTxState (txHash st2) success (txError st2) (Some receipt) in
              mkExecution st3 [st1; st2; st3] (Some gasLimit) (Resolved receipt)
          end
      end
  end.

(** *** [SecureTransactionService.executeSecureTransaction] *)

(** [SECURITY_CONFIG.SUPPORTED_NETWORKS] *)
Definition SUPPORTED_NETWORKS : list Z := [1; 5; 137; 80001]%Z.

(** [Promise.race] of [tx.wait(requireConfirmations)] against the timeout
    timer: the wait settles first, or the timer fires first. *)
Inductive Race : Type :=
| WaitSettled (o : Outcome (option TransactionReceipt) JsError)
| TimerFired.

Definition executeSecureTransaction
    (network : Outcome Z JsError)
    (sendTransaction : Outcome TransactionResponse JsError)
    (race : Race) : Outcome TransactionReceipt JsError :=
  (* Final validation before sending *)
  match network with
  | Rejected e => Rejected e
  | Resolved networkChainId =>
      if negb (bool_decide (networkChainId ∈ SUPPORTED_NETWORKS)) then
        Rejected (Error "Transaction attempted on unsupported network")
      else
        (* Send transaction *)
        match sendTransaction with
        | Rejected e => Rejected e
        | Resolved tx =>
            (* Wait for confirmation with timeout *)
            match race with
            | TimerFired => Rejected (Error "Transaction timeout")
            | WaitSettled (Rejected e) => Rejected e
            | WaitSettled (Resolved None) =>
                Rejected (Error "Transaction failed - no receipt")
            | WaitSettled (Resolved (Some receipt)) =>
                if bool_decide (status receipt = Some 0%Z) then
                  Rejected (Error "Transaction reverted")
                else Resolved receipt
            end
        end
  end.

(** *** [multicall] *)

Section Multicall.
Context {Call T E : Type}.
(** [contract[method](...args)], settled. *)
Variable invoke : Call -> Outcome T E.

(** The arrow function mapped over a batch: its [try]/[catch] turns a
    failing call into [null]. *)
Definition guarded (call : Call) : Outcome (option T) E :=
  match invoke call with
  | Resolved v => Resolved (Some v)
  | Rejected _ => Resolved None
  end.

(** What the [forEach] pushes for one result of [Promise.allSettled]. *)
Definition pushed (result : Outcome (option T) E) : option T :=
  match result with
  | Resolved value => value
  | Rejected _ => None
  end.

(** The entry of the result array for one call. *)
Definition entry (call : Call) : option T := pushed (guarded call).

(** The [for] loop from index [i] on, [results] being what has been
    pushed so far.  [fuel] bounds the number of iterations. *)
Fixpoint multicallLoop (calls : list Call) (batchSize : nat)
    (fuel i : nat) (results : list (option T)) : option (list (option T)) :=
  match fuel with
  | O => None
  | S fuel' =>
      if (i <? length calls)%nat then
        let batch := Js.slice2 i (i + batchSize) calls in
        let batchResults := map guarded batch in
        multicallLoop calls batchSize fuel' (i + batchSize)
          (results ++ map pushed batchResults)%list
      else Some results
  end.

(** [multicall(calls, batchSize = 10)] *)
Definition multicall (fuel : nat) (calls : list Call) (batchSize : option nat)
    : option (list (option T)) :=
  multicallLoop calls (Js.defaulted batchSize 10) fuel 0 [].

End Multicall.

End Transactions.


(** ** Reporting errors ([utils/contract-helpers/index.ts] and the
    contract-calls recipe) *)

Module Reporting.
Import Errors.

(** [TransactionUtils.parseTransactionError] *)
Definition parseTransactionError (error : JsError) : string :=
  if codeIs error (CodeNum 4001) || codeIs error (CodeStr "ACTION_REJECTED") then
    "Transaction rejected by user"
  else if codeIs error (CodeStr "INSUFFICIENT_FUNDS") then
    "Insufficient funds for transaction"
  else if codeIs error (CodeStr "UNPREDICTABLE_GAS_LIMIT") then
    "Transaction would fail - check parameters"
  else
    match reason error with
    | Some (String c r) => "Contract error: " ++ String c r
    | _ =>
        match (if messageIncludes error "revert"
               then matchRevert (Js.defaulted (message error) EmptyString)
               else None) with
        | Some captured => "Contract reverted: " ++ captured
        | None => "Transaction failed"
        end
    end.

(** [ContractErrorHandler.handle] of the contract-calls recipe: it always
    throws; this is the message of the [Error] it throws. *)
Definition handle (error : JsError) : string :=
  (* User rejected transaction *)
  if codeIs error (CodeNum 4001) || codeIs error (CodeStr "ACTION_REJECTED") then
    "Transaction rejected by user"
  (* Insufficient funds *)
  else if codeIs error (CodeStr "INSUFFICIENT_FUNDS") then
    "Insufficient funds for gas"
  (* Gas estimation failed *)
  else if codeIs error (CodeStr "UNPREDICTABLE_GAS_LIMIT") then
    "Transaction would fail - check parameters"
  (* Network errors *)
  else if codeIs error (CodeStr "NETWORK_ERROR") then
    "Network connection failed - please retry"
  else
    (* Contract reverted *)
    match reason error with
    | Some (String c r) => "Contract error: " ++ String c r
    | _ =>
        (* RPC errors *)
        match (if messageIncludes error "revert"
               then matchRevert (Js.defaulted (message error) EmptyString)
               else None) with
        | Some captured => "Contract reverted: " ++ captured
        | None => "Transaction failed - please try again"
        end
    end.

(** [safeContractCall]: the operation's value, or the error [handle] throws. *)
Definition safeContractCall {T} (operation : Outcome T JsError) : Outcome T string :=
  match operation with
  | Resolved v => Resolved v
  | Rejected e => Rejected (handle e)
  end.

(** [ErrorParser.getUserFriendlyMessage] *)
Definition getUserFriendlyMessage (error : Web3Error) : string :=
  match type error with
  | USER_REJECTED =>
      "Transaction was cancelled. Please try again if you want to proceed."
  | INSUFFICIENT_FUNDS =>
      "You don't have enough funds to complete this transaction. Please add more funds to your wallet."
  | NETWORK_ERROR =>
      "Network connection failed. Please check your internet connection and try again."
  | CONTRACT_ERROR => "Transaction failed: " ++ w3message error
  | VALIDATION_ERROR => w3message error
  | UNKNOWN_ERROR => "Something went wrong. Please try again later."
  end.

(** [TransactionErrorTracker.COMMON_ERRORS], in insertion order. *)
Definition COMMON_ERRORS : list (string * string) :=
  [ ("execution reverted", "Transaction failed - contract requirements not met");
    ("insufficient funds", "Not enough ETH to pay for transaction");
    ("gas required exceeds allowance", "Gas limit too low for transaction");
    ("nonce too low", "Transaction nonce conflict - please retry");
    ("replacement transaction underpriced", "Gas price too low to replace transaction");
    ("already known", "Transaction already pending");
    ("transaction underpriced", "Gas price too low for current network conditions") ].

(** [error.message] of whatever was thrown. *)
Definition failureMessage (error : Failure) : option string :=
  match error with
  | ThrownWeb3 w => Some (w3message w)
  | ThrownOther e => message e
  end.

(** The [for ... of] loop over the table: the first pattern the message
    includes decides. *)
Fixpoint firstPattern (table : list (string * string)) (errorMessage : string)
    : option string :=
  match table with
  | [] => None
  | (pattern, humanMessage) :: rest =>
      if Js.includes errorMessage pattern then Some humanMessage
      else firstPattern rest errorMessage
  end.

(** [TransactionErrorTracker.getHumanReadableError] *)
Definition getHumanReadableError (error : Failure) : string :=
  let errorMessage :=
    Js.orElse (option_map Js.toLowerCase (failureMessage error)) EmptyString in
  match firstPattern COMMON_ERRORS errorMessage with
  | Some humanMessage => humanMessage
  | None => getUserFriendlyMessage (parse error)
  end.

(** [handleWeb3Error(error, context)] on the singleton logger's array: the
    classified error it returns and the array afterwards. *)
Definition handleWeb3Error (now : Z) (error : Failure) (context : option string)
    (logs : list LogEntry) : Web3Error * list LogEntry :=
  let web3Error := parse error in
  (web3Error, log now web3Error context logs).

(** [Web3ErrorBoundary.wrapSync(fn)(...args)] and [wrapAsync]: [settled] is
    how [fn(...args)] ended and [name] is [fn.name]. *)
Definition wrap {T} (name : string) (now : Z) (settled : Outcome T Failure)
    (logs : list LogEntry) : Outcome T Web3Error * list LogEntry :=
  match settled with
  | Resolved v => (Resolved v, logs)
  | Rejected error =>
      let web3Error := parse error in
      (Rejected web3Error, log now web3Error (Some name) logs)
  end.

(** [useTransactionError]'s [handleError]: the classified error, the
    message shown, and the retry hint. *)
Definition handleError (error : Failure) : Web3Error * string * bool :=
  let web3Error := parse error in
  (web3Error, getHumanReadableError error, isRetryable web3Error).

End Reporting.

(** ** Gas limits and transaction building (the security guide) *)

Module GasSecurity.
Import Errors.

Definition MAX_GAS_LIMIT : Z := 30000000.
Definition MIN_GAS_LIMIT : Z := 21000.

(** [validateGasLimit]: [None] when it returns, the message of the error
    when it throws. *)
Definition validateGasLimit (gasLimit : Z) : option string :=
  if (gasLimit <? MIN_GAS_LIMIT)%Z then Some "Gas limit too low. Minimum: 21000"
  else if (gasLimit >? MAX_GAS_LIMIT)%Z then Some "Gas limit too high. Maximum: 30000000"
  else None.

(** [secureGasEstimation], given how [estimateGas] settled.  The [catch]
    block also receives what [validateGasLimit] throws inside the [try]; an
    [Error] has no [reason]. *)
Definition secureGasEstimation (estimateGas : Outcome Z JsError) : Outcome Z string :=
  match estimateGas with
  | Resolved estimate =>
      (* Add safety buffer but cap at reasonable limit *)
      let withBuffer := Z.quot (estimate * 130) 100 in
      let cappedGasLimit :=
        if (withBuffer >? MAX_GAS_LIMIT)%Z then MAX_GAS_LIMIT else withBuffer in
      match validateGasLimit cappedGasLimit with
      | None => Resolved cappedGasLimit
      | Some _ => Rejected "Unable to estimate gas - transaction may fail"
      end
  | Rejected error =>
      match reason error with
      | Some (String c r) => Rejected ("Gas estimation failed: " ++ String c r)
      | _ => Rejected "Unable to estimate gas - transaction may fail"
      end
  end.

End GasSecurity.

Module SecureTransactions.
Import Errors GasSecurity.

(** [ethers.ZeroAddress] *)
Definition ZeroAddress : string := "0x0000000000000000000000000000000000000000".

(** [SECURITY_CONFIG.MAX_GAS_PRICE]: [ethers.parseUnits('100', 'gwei')] *)
Definition MAX_GAS_PRICE : Z := 100 * 10 ^ 9.

(** [/^0x[0-9a-fA-F]*$/.test(data)] *)
Definition isHexDigit (c : ascii) : bool :=
  let n := nat_of_ascii c in
  ((48 <=? n)%nat && (n <=? 57)%nat)
  || ((97 <=? n)%nat && (n <=? 102)%nat)
  || ((65 <=? n)%nat && (n <=? 70)%nat).

Fixpoint allHex (s : string) : bool :=
  match s with
  | EmptyString => true
  | String c rest => isHexDigit c && allHex rest
  end.

Definition isHexData (data : string) : bool :=
  match data with
  | String a (String b rest) =>
      Ascii.eqb a "0" && Ascii.eqb b "x" && allHex rest
  | _ => false
  end.

(** The parameters of [buildSecureTransaction], and the request it builds. *)
Record Params : Type := mkParams {
  to : string;
  value : option Z;
  data : option string;
  gasLimit : option Z;
  gasPrice : option Z;
  nonce : option Z
}.

Record TransactionRequest : Type := mkRequest {
  reqTo : string;
  reqValue : Z;
  reqData : string;
  reqGasLimit : option Z;
  reqGasPrice : option Z;
  reqNonce : option Z
}.

Section Build.
(** [ethers.getAddress]: the checksummed address, or [None] when it throws. *)
Variable getAddress : string -> option string.
(** [ethers.formatUnits(_, 'gwei')] *)
Variable formatGwei : Z -> string.

(** [AddressValidator.validate]: [None] for [{ isValid: true }], the
    [error] otherwise. *)
Definition validateAddress (address : string) : option string :=
  match address with
  | EmptyString => Some "Address is required"
  | _ =>
      match getAddress address with
      | Some _ => None
      | None => Some "Invalid Ethereum address format"
      end
  end.

(** [AddressValidator.isValid] *)
Definition isValidAddress (address : string) : bool :=
  match validateAddress address with
  | None => true
  | Some _ => false
  end.

(** [AddressValidator.isZeroAddress] *)
Definition isZeroAddress (address : string) : bool :=
  match getAddress address with
  | Some checksummed => bool_decide (checksummed = ZeroAddress)
  | None => false
  end.

(** [GasSecurity.validateGasPrice] *)
Definition validateGasPrice (gasPrice maxGasPrice : Z) : option string :=
  if (gasPrice >? maxGasPrice)%Z then
    Some ("Gas price " ++ formatGwei gasPrice ++ " Gwei exceeds maximum "
          ++ formatGwei maxGasPrice ++ " Gwei")
  else None.

(** A bigint used as a condition: [undefined] and [0n] are falsy. *)
Definition truthyBigint (n : option Z) : option Z :=
  match n with
  | Some 0%Z | None => None
  | Some n => Some n
  end.

(** [SecureTransactionService.buildSecureTransaction] *)
Definition buildSecureTransaction (params : Params)
    : Outcome TransactionRequest string :=
  let value := Js.defaulted (value params) 0%Z in
  let data := Js.defaulted (data params) "0x" in
  (* Validate recipient *)
  match validateAddress (to params) with
  | Some err => Rejected err
  | None =>
      if isZeroAddress (to params) && negb (Js.truthy (Some data)) then
        Rejected "Cannot send ETH to zero address without data"
      (* Validate value *)
      else if (value <? 0)%Z then
        Rejected "Transaction value cannot be negative"
      (* Validate data *)
      else if negb (bool_decide (data = "0x")) && negb (isHexData data) then
        Rejected "Invalid transaction data format"
      else
        (* Validate gas parameters *)
        match (match truthyBigint (gasLimit params) with
               | Some g => validateGasLimit g
               | None => None
               end) with
        | Some err => Rejected err
        | None =>
            match (match truthyBigint (gasPrice params) with
                   | Some p => validateGasPrice p MAX_GAS_PRICE
                   | None => None
                   end) with
            | Some err => Rejected err
            | None =>
                Resolved (mkRequest (to params) value data (gasLimit params)
                            (gasPrice params) (nonce params))
            end
        end
  end.

End Build.

End SecureTransactions.

(** ** Session restoration and wallet events ([useWallet.ts]) *)

Module Session.
Import Errors Wallet.

(** The [catch] block of [autoConnect]. *)
Definition autoConnectFailed (h : Hook) : Hook * Task :=
  (removeItem "walletConnected" h, Finished).

(** [autoConnect], run once on page load.  Its first call is the wallet's
    [eth_accounts], which does not prompt the user; [requests] keeps no
    record of it. *)
Definition autoConnect (h : Hook) : Hook * Task :=
  if bool_decide (localStorage h !! "walletConnected" = Some "true") then
    if negb (ethereum h) then (h, Finished)
    else
      (h,
       AwaitAccounts (fun o h =>
         match o with
         | Rejected _ => autoConnectFailed h
         | Resolved [] => (h, Finished)
         | Resolved (account0 :: _) =>
             let provider := NewBrowserProvider in
             (issue GetSigner h,
              AwaitSigner (fun o h =>
                match o with
                | Rejected _ => autoConnectFailed h
                | Resolved signer =>
                    (issue GetNetwork h,
                     AwaitNetwork (fun o h =>
                       match o with
                       | Rejected _ => autoConnectFailed h
                       | Resolved networkChainId =>
                           (updateState
                              (mkUpdates (Some (Some account0)) (Some (Some provider))
                                 (Some (Some signer)) (Some (Some networkChainId))
                                 None None) h,
                            Finished)
                       end))
                end))
         end))
  else (h, Finished).

(** A page reload: the React state starts afresh, [localStorage] stays. *)
Definition reload (h : Hook) : Hook :=
  mkHook initialState (localStorage h) (ethereum h) [].

End Session.

(** ** Contract instances, cached calls and balances
    ([utils/contract-helpers/index.ts] and the contract-calls recipe) *)

Module Contracts.

Section Factory.
Context {Abi Signer Provider : Type}.

(** What a contract object is bound to. *)
Inductive Runner : Type :=
| WithSigner (signer : Signer)
| WithProvider (provider : Provider).

(** [new ethers.Contract(address, abi, runner)] *)
Record Contract : Type := mkContract {
  target : string;
  abi : Abi;
  runner : Runner
}.

(** The cache key of [ContractFactory.getContract]. *)
Definition contractKey (address : string) (signer : option Signer) : string :=
  Js.toLowerCase address ++ "-"
  ++ match signer with
     | Some _ => "signer"
     | None => "provider"
     end.

(** [ContractFactory.getContract] on the factory's [contracts] map: the
    contract returned and the map afterwards. *)
Definition getContract (provider : Provider) (address : string) (abi : Abi)
    (signer : option Signer) (contracts : gmap string Contract)
    : Contract * gmap string Contract :=
  let key := contractKey address signer in
  match contracts !! key with
  | Some contract => (contract, contracts)
  | None =>
      let contract :=
        mkContract address abi
          match signer with
          | Some s => WithSigner s
          | None => WithProvider provider
          end in
      (contract, <[key := contract]> contracts)
  end.

(** [ContractFactory.clearCache] *)
Definition clearCache (contracts : gmap string Contract) : gmap string Contract := ∅.

End Factory.

Section CallCache.
Context {T E : Type}.

(** [ContractCallCache.ttl] *)
Definition ttl : Z := 60000.

(** One [get]: what it settles as, the cache afterwards, and whether the
    contract was called. *)
Record Lookup : Type := mkLookup {
  settledAs : Outcome T E;
  cacheAfter : gmap string (T * Z);
  called : bool
}.

(** [ContractCallCache.get] for the entry [key].  [now] is the clock when
    the cache is consulted, [later] the clock when a fresh result is stored,
    and [call] how [contract[method](...args)] settles if it is made. *)
Definition get (key : string) (now later : Z) (call : Outcome T E)
    (cache : gmap string (T * Z)) : Lookup :=
  match cache !! key with
  | Some (cachedData, cachedAt) =>
      if (now - cachedAt <? ttl)%Z then mkLookup (Resolved cachedData) cache false
      else
        match call with
        | Resolved result => mkLookup (Resolved result) (<[key := (result, later)]> cache) true
        | Rejected e => mkLookup (Rejected e) cache true
        end
  | None =>
      match call with
      | Resolved result => mkLookup (Resolved result) (<[key := (result, later)]> cache) true
      | Rejected e => mkLookup (Rejected e) cache true
      end
  end.

End CallCache.

Section Balances.
Context {E : Type}.
(** [ethers.formatEther] *)
Variable formatEther : Z -> string.
(** [balanceOf(userAddress)] on the token at an address, settled. *)
Variable balanceOf : string -> Outcome Z E.

(** [balances[index] ? ethers.formatEther(balances[index]) : null]: a
    missing entry, [null] and [0n] are falsy. *)
Definition shown (balance : option (option Z)) : option string :=
  match balance with
  | Some (Some b) => if (b =? 0)%Z then None else Some (formatEther b)
  | _ => None
  end.

(** [getMultipleBalances], one call per token address, with [multicall]'s
    default batch size. *)
Definition getMultipleBalances (fuel : nat) (tokenAddresses : list string)
    : option (list (string * option string)) :=
  match Transactions.multicall balanceOf fuel tokenAddresses None with
  | Some balances =>
      Some (imap (fun index address => (address, shown (balances !! index)))
              tokenAddresses)
  | None => None
  end.

End Balances.

End Contracts.

(** ** The transaction list reducer (architecture guide) *)

Module TransactionContext.

Inductive Status : Type := pending | success | error.

#[export] Instance Status_eq_dec : EqDecision Status.
Proof. solve_decision. Defined.

(** A transaction object as the reducer handles it.  [Transaction] and
    [Partial<Transaction>] have the same keys; a key that is not set is
    [None]. *)
Record Transaction : Type := mkTransaction {
  id : option string;
  hash : option string;
  status : option Status;
  txError : option string;
  type : option string;
  timestamp : option Z
}.

(** [{ ...tx, ...updates }] *)
Definition spread (tx updates : Transaction) : Transaction :=
  mkTransaction
    (match id updates with Some v => Some v | None => id tx end)
    (match hash updates with Some v => Some v | None => hash tx end)
    (match status updates with Some v => Some v | None => status tx end)
    (match txError updates with Some v => Some v | None => txError tx end)
    (match type updates with Some v => Some v | None => type tx end)
    (match timestamp updates with Some v => Some v | None => timestamp tx end).

(** [{ ...undefined, ...updates }] has the keys of [updates] only. *)
Definition spreadOnto (found : option Transaction) (updates : Transaction) : Transaction :=
  match found with
  | Some tx => spread tx updates
  | None => updates
  end.

Record TransactionState : Type := mkState {
  transactions : list Transaction;
  pendingList : list Transaction
}.

Inductive TransactionAction : Type :=
| ADD_TRANSACTION (payload : Transaction)
| UPDATE_TRANSACTION (payloadId : string) (updates : Transaction)
| REMOVE_TRANSACTION (payloadId : string)
| CLEAR_TRANSACTIONS.

(** [tx.id === payloadId] *)
Definition hasId (payloadId : string) (tx : Transaction) : bool :=
  bool_decide (id tx = Some payloadId).

(** [arr.find(p)] *)
Fixpoint find {A} (p : A -> bool) (l : list A) : option A :=
  match l with
  | [] => None
  | x :: rest => if p x then Some x else find p rest
  end.

(** [arr.filter(p)] *)
Fixpoint keep {A} (p : A -> bool) (l : list A) : list A :=
  match l with
  | [] => []
  | x :: rest => if p x then x :: keep p rest else keep p rest
  end.

Definition transactionReducer (state : TransactionState) (action : TransactionAction)
    : TransactionState :=
  match action with
  | ADD_TRANSACTION payload =>
      mkState (payload :: transactions state)
        (if bool_decide (status payload = Some pending)
         then payload :: pendingList state
         else pendingList state)
  | UPDATE_TRANSACTION payloadId updates =>
      mkState
        (map (fun tx => if hasId payloadId tx then spread tx updates else tx)
           (transactions state))
        (keep (fun tx => negb (hasId payloadId tx)) (pendingList state)
         ++ (if bool_decide (status updates = Some pending)
             then [spreadOnto (find (hasId payloadId) (transactions state)) updates]
             else []))%list
  | REMOVE_TRANSACTION payloadId =>
      mkState (keep (fun tx => negb (hasId payloadId tx)) (transactions state))
        (keep (fun tx => negb (hasId payloadId tx)) (pendingList state))
  | CLEAR_TRANSACTIONS => mkState [] []
  end.

(** The state [useReducer] starts from. *)
Definition initialState : TransactionState := mkState [] [].

Definition dispatchAll (actions : list TransactionAction) : TransactionState :=
  fold_left transactionReducer actions initialState.

End TransactionContext.

(** ** Runtime protections (the security guide) *)

Module Protection.

(** *** [SecurityMonitor] *)

Definition MAX_ATTEMPTS : nat := 5.

(** [this.failedAttempts.get(identifier) || 0] *)
Definition attemptsOf (identifier : string) (failedAttempts : gmap string nat) : nat :=
  default 0 (failedAttempts !! identifier).

Definition recordFailedAttempt (identifier : string)
    (failedAttempts : gmap string nat) : gmap string nat :=
  <[identifier := attemptsOf identifier failedAttempts + 1]> failedAttempts.

Definition isBlocked (identifier : string) (failedAttempts : gmap string nat) : bool :=
  (MAX_ATTEMPTS <=? attemptsOf identifier failedAttempts)%nat.

Definition clearFailedAttempts (identifier : string)
    (failedAttempts : gmap string nat) : gmap string nat :=
  delete identifier failedAttempts.

(** *** [XSSPrevention.escapeHtml] *)

(** [s.replace(/c/g, by)] for a single character [c]. *)
Fixpoint replaceChar (c : ascii) (by_ : string) (s : string) : string :=
  match s with
  | EmptyString => EmptyString
  | String a rest =>
      if Ascii.eqb a c then by_ ++ replaceChar c by_ rest
      else String a (replaceChar c by_ rest)
  end.

Definition ampersand : ascii := ascii_of_nat 38.
Definition lessThan : ascii := ascii_of_nat 60.
Definition greaterThan : ascii := ascii_of_nat 62.
Definition doubleQuote : ascii := ascii_of_nat 34.
Definition apostrophe : ascii := ascii_of_nat 39.

Definition escapeHtml (unsafe : string) : string :=
  replaceChar apostrophe "&#039;"
    (replaceChar doubleQuote "&quot;"
       (replaceChar greaterThan "&gt;"
          (replaceChar lessThan "&lt;"
             (replaceChar ampersand "&amp;" unsafe)))).

(** What one character of the input becomes. *)
Definition escapeChar (c : ascii) : string :=
  if Ascii.eqb c ampersand then "&amp;"
  else if Ascii.eqb c lessThan then "&lt;"
  else if Ascii.eqb c greaterThan then "&gt;"
  else if Ascii.eqb c doubleQuote then "&quot;"
  else if Ascii.eqb c apostrophe then "&#039;"
  else String c EmptyString.

(** *** [WalletSecurity.sanitizeUserInput] *)

(** The character class of [sanitizeUserInput]: less-than, greater-than,
    apostrophe and double quote. *)
Definition isInjectionChar (c : ascii) : bool :=
  Ascii.eqb c lessThan || Ascii.eqb c greaterThan
  || Ascii.eqb c apostrophe || Ascii.eqb c doubleQuote.

(** The global [replace] of that class by the empty string. *)
Fixpoint removeInjectionChars (s : string) : string :=
  match s with
  | EmptyString => EmptyString
  | String c rest =>
      if isInjectionChar c then removeInjectionChars rest
      else String c (removeInjectionChars rest)
  end.

(** White space and line terminators among 8-bit code units: TAB, LF, VT,
    FF, CR, space and the no-break space. *)
Definition isWhiteSpace (c : ascii) : bool :=
  let n := nat_of_ascii c in
  ((9 <=? n)%nat && (n <=? 13)%nat) || (n =? 32)%nat || (n =? 160)%nat.

Fixpoint trimStart (s : string) : string :=
  match s with
  | EmptyString => EmptyString
  | String c rest => if isWhiteSpace c then trimStart rest else s
  end.

Fixpoint trimEnd (s : string) : string :=
  match s with
  | EmptyString => EmptyString
  | String c rest =>
      match trimEnd rest with
      | EmptyString => if isWhiteSpace c then EmptyString else String c EmptyString
      | kept => String c kept
      end
  end.

(** [s.trim()] *)
Definition trim (s : string) : string := trimEnd (trimStart s).

Definition sanitizeUserInput (input : string) : string :=
  String.substring 0 1000 (trim (removeInjectionChars input)).

End Protection.

(** The logger operation that appends a given entry. *)
Definition logOp (e : Errors.LogEntry) : Errors.LoggerOp :=
  Errors.OpLog (Errors.timestamp e) (Errors.error e) (Errors.context e).

(** Every character of [s] fails the test [bad]. *)
Fixpoint noneOf (bad : ascii -> bool) (s : string) : bool :=
  match s with
  | EmptyString => true
  | String c rest => negb (bad c) && noneOf bad rest
  end.

(** The input escaped character by character, in one pass. *)
Fixpoint escapeEach (s : string) : string :=
  match s with
  | EmptyString => EmptyString
  | String c rest => Protection.escapeChar c ++ escapeEach rest
  end.

(** * Properties *)

Import Errors.

(** ** The error classifier *)

Section Classifier.

Lemma parseOther_kind (e : JsError) : type (parseOther e) = codeKind e.
Proof.
  unfold parseOther, codeKind, userDeclined, balanceShortfall, transportFailure,
    carriesRevertReason, messageMatchesRevert, estimateFailed.
  destruct (codeIs e (CodeNum 4001) || codeIs e (CodeStr "ACTION_REJECTED")); [reflexivity|].
  destruct (codeIs e (CodeStr "INSUFFICIENT_FUNDS")); [reflexivity|].
  destruct (codeIs e (CodeStr "NETWORK_ERROR") || messageIncludes e "network"); [reflexivity|].
  destruct (Js.truthy (reason e) || messageIncludes e "revert"); [reflexivity|].
  destruct (codeIs e (CodeStr "UNPREDICTABLE_GAS_LIMIT")); reflexivity.
Qed.

Lemma codeKind_vs_specKind (e : JsError) :
  codeKind e = specKind e <-> ordersPart e = false.
Proof.
  unfold codeKind, specKind, ordersPart.
  destruct (userDeclined e), (balanceShortfall e), (carriesRevertReason e),
    (messageMatchesRevert e), (transportFailure e), (estimateFailed e);
    simpl; split; intros H; try reflexivity; try discriminate H.
Qed.

(** A raw failure is never classified as a validation error. *)
Lemma parseOther_never_validation (e : JsError) :
  type (parseOther e) <> VALIDATION_ERROR.
Proof.
  rewrite parseOther_kind. unfold codeKind.
  repeat match goal with |- context [if ?b then _ else _] => destruct b end;
    discriminate.
Qed.

(** C1, as stated, fails on the code.  A failure that carries a revert reason
    and signals a transport problem is classified [NETWORK_ERROR], where the
    specification's order gives [CONTRACT_ERROR]; a failed resource estimate
    is classified [CONTRACT_ERROR], where the specification gives
    [VALIDATION_ERROR]. *)
Lemma parse_departs_from_spec_order :
  let e1 := mkJsError (Some (CodeStr "NETWORK_ERROR"))
              (Some "could not detect network") (Some "Paused") in
  let e2 := mkJsError (Some (CodeStr "UNPREDICTABLE_GAS_LIMIT"))
              (Some "cannot estimate gas") None in
  (specKind e1 = CONTRACT_ERROR /\ type (parse (ThrownOther e1)) = NETWORK_ERROR)
  /\ (specKind e2 = VALIDATION_ERROR /\ type (parse (ThrownOther e2)) = CONTRACT_ERROR).
Proof. vm_compute. repeat split. Qed.

(** C1, amended.  For every upstream failure value the classifier returns an
    already classified error unchanged and otherwise assigns the kind by its
    own priority order, first match wins: user declined, balance shortfall,
    transport failure, revert reason (carried or matched in the message),
    failed resource estimate (a contract error with the check-parameters
    message), unknown.  It agrees with the specification's order exactly on
    the failures where the two orders do not part, and never yields a
    validation error for a raw failure. *)
Theorem parse_kind_priority (f : Failure) :
  type (parse f) =
    match f with
    | ThrownWeb3 w => type w
    | ThrownOther e => codeKind e
    end
  /\ match f with
     | ThrownWeb3 w => parse f = w
     | ThrownOther e =>
         (type (parse f) = specKind e <-> ordersPart e = false)
         /\ type (parse f) <> VALIDATION_ERROR
         /\ (codeKind e = CONTRACT_ERROR ->
             carriesRevertReason e || messageMatchesRevert e = false ->
             w3message (parse f) = "Transaction would fail - check parameters")
     end.
Proof.
  destruct f as [w|e]; simpl; [split; reflexivity|].
  split; [apply parseOther_kind|].
  split; [rewrite parseOther_kind; apply codeKind_vs_specKind|].
  split; [apply parseOther_never_validation|].
  unfold codeKind, parseOther, userDeclined, balanceShortfall, transportFailure,
    carriesRevertReason, messageMatchesRevert, estimateFailed.
  intros Hk Hr. rewrite Hr in *.
  destruct (codeIs e (CodeNum 4001) || codeIs e (CodeStr "ACTION_REJECTED")); [discriminate|].
  destruct (codeIs e (CodeStr "INSUFFICIENT_FUNDS")); [discriminate|].
  destruct (codeIs e (CodeStr "NETWORK_ERROR") || messageIncludes e "network"); [discriminate|].
  destruct (codeIs e (CodeStr "UNPREDICTABLE_GAS_LIMIT")); [reflexivity|discriminate].
Qed.

End Classifier.

(** ** The retry hint *)

Section RetryHint.

(** C2, as stated, fails on the code: a contract error whose message mentions
    the network is retryable.  The error is the classification of a failure
    that carries the revert reason "network congestion". *)
Lemma isRetryable_contract_error_by_message :
  let w := parse (ThrownOther (mkJsError None None (Some "network congestion"))) in
  type w = CONTRACT_ERROR /\ isRetryable w = true.
Proof. vm_compute. split; reflexivity. Qed.

(** C2, amended.  [isRetryable] returns true exactly for the kinds
    [NETWORK_ERROR] and [UNKNOWN_ERROR], and for a [CONTRACT_ERROR] whose
    lower-cased message contains "network", "timeout" or "connection"; it
    returns false for [USER_REJECTED], [INSUFFICIENT_FUNDS] and
    [VALIDATION_ERROR] whatever the message. *)
Theorem isRetryable_characterised (w : Web3Error) :
  isRetryable w =
    match type w with
    | NETWORK_ERROR | UNKNOWN_ERROR => true
    | CONTRACT_ERROR => mentionsTransport (w3message w)
    | USER_REJECTED | INSUFFICIENT_FUNDS | VALIDATION_ERROR => false
    end.
Proof.
  unfold isRetryable, mentionsTransport.
  destruct (type w); vm_compute; reflexivity.
Qed.

End RetryHint.

(** ** The gas buffer *)

Section GasBuffer.
Import GasUtils Transactions.

(** Truncating and flooring division agree on a non-negative estimate. *)
Lemma buffered_nonneg (g : Z) :
  (0 <= g)%Z -> (Z.quot (g * 120) 100 = g * 120 / 100)%Z.
Proof. intros Hg. apply Z.quot_div_nonneg; lia. Qed.

(** C7.  With the default margin the limit is the estimate times (100 + 20)
    divided by 100 in integer arithmetic; 100,000 units give exactly 120,000;
    and [TransactionManager.executeTransaction] submits that same limit. *)
Theorem estimateGasWithBuffer_default (g : Z) :
  estimateGasWithBuffer (E := JsError) (Resolved g) None
    = Resolved (Z.quot (g * (100 + 20)) 100)
  /\ estimateGasWithBuffer (E := JsError) (Resolved 100000%Z) None = Resolved 120000%Z
  /\ ((0 <= g)%Z ->
      estimateGasWithBuffer (E := JsError) (Resolved g) None
        = Resolved (g * 120 / 100)%Z)
  /\ (forall chain st0,
        estimateGas chain = Resolved g ->
        submittedGasLimit (executeTransaction chain st0)
          = Some (Z.quot (g * (100 + 20)) 100)).
Proof.
  split; [reflexivity|]. split; [reflexivity|]. split.
  - intros Hg. simpl. f_equal. apply buffered_nonneg, Hg.
  - intros chain st0 Hest. unfold executeTransaction. rewrite Hest.
    destruct (send chain _); [destruct (wait chain)|]; reflexivity.
Qed.

End GasBuffer.

(** ** The wallet connection *)

Section Connection.
Import Wallet.

Lemma accountRequests_issue (r : Request) (h : Hook) :
  accountRequests (issue r h)
  = accountRequests h + (if bool_decide (r = EthRequestAccounts) then 1 else 0).
Proof.
  unfold accountRequests, issue; simpl.
  rewrite filter_app, length_app. f_equal.
  case_bool_decide as Hr.
  - rewrite filter_cons_True by exact Hr. reflexivity.
  - rewrite filter_cons_False by exact Hr. reflexivity.
Qed.

Lemma accountRequests_updateState (u : Updates) (h : Hook) :
  accountRequests (updateState u h) = accountRequests h.
Proof. reflexivity. Qed.

(** C4, as stated, fails on the code.  A hook on which [connect] is in flight
    has [isConnecting] set; [disconnect] leaves it set, so the state is not the
    empty one. *)
Lemma disconnect_while_connecting :
  let h := fst (connect (initialHook true)) in
  isConnecting (state h) = true
  /\ isConnecting (state (disconnect h)) = true
  /\ state (disconnect h) <> initialState.
Proof.
  cbn. split; [reflexivity|]. split; [reflexivity|]. discriminate.
Qed.

(** C4, amended.  For every prior state [disconnect] clears [address],
    [provider], [signer], [chainId] and [error], leaves [isConnecting] as it
    was, removes the session-restoration marker and nothing else from
    [localStorage], and issues no upstream call; the state is the empty one
    whenever no connect was in flight. *)
Theorem disconnect_clears (h : Hook) :
  state (disconnect h)
    = mkWalletState None None None None (isConnecting (state h)) None
  /\ localStorage (disconnect h) !! "walletConnected" = None
  /\ (forall key, key <> "walletConnected" ->
        localStorage (disconnect h) !! key = localStorage h !! key)
  /\ requests (disconnect h) = requests h
  /\ (isConnecting (state h) = false -> state (disconnect h) = initialState).
Proof.
  unfold disconnect, removeItem, updateState, merge; simpl.
  split; [reflexivity|].
  split; [apply lookup_delete_eq|].
  split; [intros key Hkey; apply lookup_delete_ne; congruence|].
  split; [reflexivity|].
  intros ->. reflexivity.
Qed.

(** C5, as stated, fails on the code.  Two calls of [connect], the second
    made while the first is still suspended at its account request, send two
    account requests to the wallet. *)
Lemma concurrent_connect_two_requests :
  let first := connect (initialHook true) in
  let second := connect (fst first) in
  (exists k, snd first = AwaitAccounts k)
  /\ (exists k, snd second = AwaitAccounts k)
  /\ accountRequests (fst first) = 1
  /\ accountRequests (fst second) = 2.
Proof.
  cbn. split; [eexists; reflexivity|]. split; [eexists; reflexivity|].
  split; reflexivity.
Qed.

(** C5, amended.  Every call of [connect] on a page with a wallet sends its
    own account request and suspends on it, whether or not another connect is
    in flight: two calls made before either resolves send exactly two.  With
    no wallet present a call sends none. *)
Theorem connect_sends_own_request (h : Hook) :
  accountRequests (fst (connect h))
    = accountRequests h + (if ethereum h then 1 else 0)
  /\ (if ethereum h
      then exists k, snd (connect h) = AwaitAccounts k
      else snd (connect h) = Finished)
  /\ accountRequests (fst (connect (fst (connect h))))
     = accountRequests h + (if ethereum h then 2 else 0).
Proof.
  assert (Hone : forall g, accountRequests (fst (connect g))
                 = accountRequests g + (if ethereum g then 1 else 0)).
  { intros g. unfold connect; simpl. destruct (ethereum g); simpl.
    - rewrite accountRequests_issue. reflexivity.
    - unfold accountRequests; simpl. lia. }
  assert (Heth : ethereum (fst (connect h)) = ethereum h).
  { unfold connect; simpl. destruct (ethereum h) eqn:He; simpl; exact He. }
  split; [apply Hone|]. split.
  - unfold connect; simpl. destruct (ethereum h); simpl; [eexists|]; reflexivity.
  - rewrite Hone, Hone, Heth. destruct (ethereum h); lia.
Qed.

Lemma switchFailed_step (e : JsError) (h : Hook) :
  sameIdentity h (fst (switchFailed e h))
  /\ snd (switchFailed e h) = Finished
  /\ chainId (state (fst (switchFailed e h))) = chainId (state h)
  /\ error (state (fst (switchFailed e h)))
     = Some (if codeIs e (CodeNum 4902) then "Network not added to MetaMask"
             else if codeIs e (CodeNum 4001) then "Network switch rejected by user"
             else "Failed to switch network").
Proof. unfold sameIdentity, switchFailed; simpl. repeat split; reflexivity. Qed.

Lemma switchNetwork_every_step (target : Z) (h : Hook) :
  sameIdentity h (fst (switchNetwork target h))
  /\ EveryStep sameIdentity (snd (switchNetwork target h)).
Proof.
  unfold switchNetwork; simpl. destruct (ethereum h); simpl.
  - split; [repeat split; reflexivity|].
    apply every_switch; intros [u|e] g; simpl;
      try (repeat split; reflexivity); try constructor.
    + intros [c|e] g'; simpl; repeat split; reflexivity.
    + intros [c|e] g'; simpl; constructor.
  - split; [repeat split; reflexivity | constructor].
Qed.

(** C9, as stated, fails on the code: a successful switch also modifies the
    stored error, which [switchNetwork] clears before it asks the wallet. *)
Lemma switchNetwork_success_clears_error :
  let h := mkHook (mkWalletState (Some "0x52908400098527886e0f7030069857d2e4169ee7")
                     (Some NewBrowserProvider) None (Some 1%Z) false
                     (Some "Failed to switch network")) ∅ true [] in
  let up := mkUpstream (Resolved []) (Resolved tt)
              (Resolved (mkSigner "0x52908400098527886e0f7030069857d2e4169ee7"))
              (Resolved 137%Z) in
  let h' := runToEnd up (switchNetwork 137 h) in
  chainId (state h') = Some 137%Z
  /\ error (state h) = Some "Failed to switch network"
  /\ error (state h') = None.
Proof. cbn. repeat split; reflexivity. Qed.

(** C9, amended.  For every target chain id and every outcome of
    [switchNetwork] the [address] of the connection state is unchanged, and so
    are [provider], [signer], [isConnecting] and [localStorage], at every step
    of the operation; it first clears the stored error, then on success sets
    [chainId] to the wallet's network and leaves the error cleared, and on
    failure (unknown network, user decline, or any other) stores the error
    message and leaves [chainId] as it was. *)
Theorem switchNetwork_frame (target : Z) (up : Upstream) (h : Hook) :
  let h' := runToEnd up (switchNetwork target h) in
  sameIdentity h h'
  /\ EveryStep sameIdentity (snd (switchNetwork target h))
  /\ match (if ethereum h then switchReply up
            else Rejected (Error "MetaMask not available")), networkReply up with
     | Resolved _, Resolved networkChainId =>
         chainId (state h') = Some networkChainId /\ error (state h') = None
     | Rejected e, _ | Resolved _, Rejected e =>
         chainId (state h') = chainId (state h)
         /\ error (state h')
            = Some (if codeIs e (CodeNum 4902) then "Network not added to MetaMask"
                    else if codeIs e (CodeNum 4001) then "Network switch rejected by user"
                    else "Failed to switch network")
     end.
Proof.
  cbv zeta. split; [|split; [apply switchNetwork_every_step|]].
  - unfold runToEnd, switchNetwork; simpl.
    destruct (ethereum h); simpl; [|repeat split; reflexivity].
    destruct (switchReply up) as [u|e]; simpl; [|repeat split; reflexivity].
    destruct (networkReply up) as [c|e]; simpl; repeat split; reflexivity.
  - unfold runToEnd, switchNetwork; simpl.
    destruct (ethereum h); simpl.
    + destruct (switchReply up) as [u|e]; simpl.
      * destruct (networkReply up) as [c|e]; simpl; split; reflexivity.
      * destruct (networkReply up); split; reflexivity.
    + destruct (networkReply up); split; reflexivity.
Qed.

End Connection.

(** ** The retry helper *)

Section RetryHelper.
Context {World T : Type}.
Variable operation : World -> Outcome T Failure * World.
Variable wait : Z -> World -> World.
Variable shouldRetry : option (Web3Error -> bool).
Variable maxRetries : nat.
Variable retryDelay : Z.

Lemma invocations_schedule (attempt : nat) (os : list (Outcome T Failure)) :
  invocations (schedule retryDelay attempt os) = length os.
Proof.
  revert attempt. induction os as [|o rest IH]; intros attempt; [reflexivity|].
  destruct rest as [|o2 rest]; [reflexivity|].
  change (S (invocations (schedule retryDelay (S attempt) (o2 :: rest)))
          = S (length (o2 :: rest))).
  rewrite IH. reflexivity.
Qed.

Lemma waits_schedule (attempt : nat) (os : list (Outcome T Failure)) :
  waits (schedule retryDelay attempt os)
  = map (fun k => (retryDelay * 2 ^ Z.of_nat k)%Z) (seq attempt (length os - 1)).
Proof.
  revert attempt. induction os as [|o rest IH]; intros attempt; [reflexivity|].
  destruct rest as [|o2 rest]; [reflexivity|].
  change (((retryDelay * 2 ^ Z.of_nat attempt)%Z
           :: waits (schedule retryDelay (S attempt) (o2 :: rest)))
          = map (fun k => (retryDelay * 2 ^ Z.of_nat k)%Z)
              (seq attempt (S (length rest)))).
  rewrite IH. simpl. rewrite Nat.sub_0_r. reflexivity.
Qed.

(** The loop from [attempt] on, with [n] retries left: it ends, after at most
    [n + 1] invocations, with what its last invocation settled as; every
    earlier invocation failed in a way that lets the loop go on; and a last
    invocation that would let it go on is the one that exhausts the retries. *)
Lemma retryLoop_run (n attempt : nat) (lastError : option Web3Error) (w : World) :
  attempt + n = maxRetries ->
  exists os o w',
    retryLoop operation wait shouldRetry maxRetries retryDelay
        (S (S n)) attempt lastError w
      = Some (completionOf o, schedule retryDelay attempt (os ++ [o])%list, w')
    /\ length os <= n
    /\ head (os ++ [o])%list = Some (fst (operation w))
    /\ Forall (fun o' => goesOn shouldRetry o' = true) os
    /\ (goesOn shouldRetry o = true -> length os = n).
Proof.
  revert attempt lastError w.
  induction n as [|n IH]; intros attempt lastError w Hn.
  - assert (Hle : (attempt <=? maxRetries)%nat = true) by (apply Nat.leb_le; lia).
    assert (Heq : (attempt =? maxRetries)%nat = true) by (apply Nat.eqb_eq; lia).
    cbn [retryLoop]. rewrite Hle.
    destruct (operation w) as [o w1] eqn:Hop.
    exists [], o, w1. simpl.
    split; [|repeat split; auto using Forall_nil].
    destruct o as [v|f]; [reflexivity|]. simpl.
    rewrite Heq. destruct (bool_decide _); [reflexivity|].
    destruct (vetoed _ _); reflexivity.
  - assert (Hle : (attempt <=? maxRetries)%nat = true) by (apply Nat.leb_le; lia).
    assert (Hne : (attempt =? maxRetries)%nat = false) by (apply Nat.eqb_neq; lia).
    remember (S (S n)) as fuel eqn:Hfuel.
    cbn [retryLoop]. rewrite Hle. subst fuel.
    destruct (operation w) as [o w1] eqn:Hop.
    destruct o as [v|f].
    + exists [], (Resolved v), w1. simpl.
      repeat split; auto using Forall_nil; try lia; discriminate.
    + cbv zeta.
      destruct (bool_decide (type (parse f) = USER_REJECTED)) eqn:Hrej.
      { exists [], (Rejected f), w1. simpl. rewrite Hrej. simpl.
        repeat split; auto using Forall_nil; try lia; discriminate. }
      destruct (vetoed shouldRetry (parse f)) eqn:Hveto.
      { exists [], (Rejected f), w1. simpl. rewrite Hrej, Hveto. simpl.
        repeat split; auto using Forall_nil; try lia; discriminate. }
      rewrite Hne.
      destruct (IH (S attempt) (Some (parse f))
                  (wait (retryDelay * 2 ^ Z.of_nat attempt)%Z w1))
        as (os & o & w' & Hrun & Hlen & Hhd & Hall & Hlast); [lia|].
      rewrite Hrun.
      exists (Rejected f :: os), o, w'.
      split.
      { simpl. destruct (os ++ [o])%list eqn:Happ; [|reflexivity].
        destruct os; discriminate Happ. }
      split; [simpl; lia|].
      split; [reflexivity|].
      split.
      { constructor; [|exact Hall]. simpl. rewrite Hrej, Hveto. reflexivity. }
      intros Hgo. simpl. f_equal. apply Hlast, Hgo.
Qed.

End RetryHelper.

(** Four attempts and waits of 1000, 2000 and 4000 ms at the defaults, for an
    operation that keeps failing with a network error. *)
Example handleWithRetry_defaults_exhausted :
  let failure := ThrownOther (mkJsError (Some (CodeStr "NETWORK_ERROR")) None None) in
  let operation := fun calls : nat => (Rejected (A := unit) failure, S calls) in
  match handleWithRetry operation (fun _ calls => calls) None
          defaultMaxRetries defaultRetryDelay 0 with
  | Some (c, evs, calls) =>
      c = Threw (parse failure) /\ calls = 4 /\ invocations evs = 4
      /\ waits evs = [1000; 2000; 4000]%Z
  | None => False
  end.
Proof. vm_compute. repeat split; reflexivity. Qed.

(** C3.  For every operation and every optional retry predicate the helper
    returns or throws after at most [maxRetries + 1] invocations of the
    operation (four at the default of three retries); between attempt [k] and
    the next it waits [retryDelay * 2 ^ k]; every attempt that is followed by
    another one failed with an error that is not a user rejection and that the
    predicate, when supplied, accepts, so a user rejection at the first attempt
    makes that attempt the only one, whatever the predicate; and the call ends
    with the value of its last invocation or throws that invocation's
    classified error, in particular when the attempts are exhausted. *)
Theorem handleWithRetry_bounded {World T : Type}
    (operation : World -> Outcome T Failure * World) (wait : Z -> World -> World)
    (shouldRetry : option (Web3Error -> bool)) (maxRetries : nat) (retryDelay : Z)
    (w : World) :
  exists os o w',
    let evs := schedule retryDelay 0 (os ++ [o])%list in
    handleWithRetry operation wait shouldRetry maxRetries retryDelay w
      = Some (completionOf o, evs, w')
    /\ invocations evs = S (length os)
    /\ invocations evs <= maxRetries + 1
    /\ (maxRetries = defaultMaxRetries -> invocations evs <= 4)
    /\ waits evs
       = map (fun k => (retryDelay * 2 ^ Z.of_nat k)%Z) (seq 0 (length os))
    /\ head (os ++ [o])%list = Some (fst (operation w))
    /\ Forall (fun o' => goesOn shouldRetry o' = true) os
    /\ (goesOn shouldRetry o = true -> invocations evs = maxRetries + 1)
    /\ (forall f, fst (operation w) = Rejected f ->
          type (parse f) = USER_REJECTED ->
          os = [] /\ o = Rejected f /\ invocations evs = 1
          /\ completionOf o = Threw (parse f))
    /\ (forall p f, shouldRetry = Some p -> fst (operation w) = Rejected f ->
          p (parse f) = false ->
          os = [] /\ o = Rejected f /\ invocations evs = 1
          /\ completionOf o = Threw (parse f)).
Proof.
  destruct (retryLoop_run operation wait shouldRetry maxRetries retryDelay
              maxRetries 0 None w eq_refl)
    as (os & o & w' & Hrun & Hlen & Hhd & Hall & Hlast).
  exists os, o, w'. cbv zeta.
  assert (Hinv : invocations (schedule retryDelay 0 (os ++ [o])%list) = S (length os)).
  { rewrite invocations_schedule, length_app. simpl. lia. }
  assert (Hfirst : forall f, fst (operation w) = Rejected f ->
                   goesOn shouldRetry (Rejected (A := T) f) = false ->
                   os = [] /\ o = Rejected f).
  { intros f Hf Hgo. destruct os as [|o1 os].
    - simpl in Hhd. split; [reflexivity|]. congruence.
    - simpl in Hhd. inversion Hall as [|? ? Ho1 _]; subst.
      assert (o1 = Rejected f) by congruence. subst o1. congruence. }
  split; [exact Hrun|]. split; [exact Hinv|]. split; [lia|].
  split; [intros ->; unfold defaultMaxRetries in *; lia|].
  split.
  { rewrite waits_schedule, length_app. simpl.
    replace (length os + 1 - 1) with (length os) by lia. reflexivity. }
  split; [exact Hhd|]. split; [exact Hall|].
  split; [intros Hgo; rewrite Hinv, (Hlast Hgo); lia|].
  split.
  - intros f Hf Hrej.
    destruct (Hfirst f Hf) as [-> ->].
    { simpl. rewrite bool_decide_eq_true_2 by exact Hrej. reflexivity. }
    repeat split; reflexivity.
  - intros p f Hp Hf Hfalse.
    destruct (Hfirst f Hf) as [-> ->].
    { simpl. unfold vetoed. rewrite Hp, Hfalse. simpl. apply andb_false_r. }
    repeat split; reflexivity.
Qed.

(** ** Multi-call batching *)

Section Batching.
Import Transactions.
Context {Call T E : Type}.
Variable invoke : Call -> Outcome T E.

Lemma entry_invoke (call : Call) :
  entry invoke call
  = match invoke call with
    | Resolved v => Some v
    | Rejected _ => None
    end.
Proof. unfold entry, guarded. destruct (invoke call); reflexivity. Qed.

(** One batch extends the results from the first [i] calls to the first
    [i + batchSize]. *)
Lemma batch_extends (calls : list Call) (i batchSize : nat) :
  (map (entry invoke) (take i calls)
   ++ map pushed (map (guarded invoke) (Js.slice2 i (i + batchSize) calls)))%list
  = map (entry invoke) (take (i + batchSize) calls).
Proof.
  unfold Js.slice2. rewrite map_map.
  change (fun x => pushed (guarded invoke x)) with (entry invoke).
  rewrite <- map_app. f_equal.
  rewrite <- (take_drop i (take (i + batchSize) calls)) at 2.
  f_equal. rewrite take_take. f_equal. lia.
Qed.

Lemma multicallLoop_run (calls : list Call) (batchSize fuel i : nat) :
  0 < batchSize ->
  length calls - i < fuel ->
  multicallLoop invoke calls batchSize fuel i (map (entry invoke) (take i calls))
  = Some (map (entry invoke) calls).
Proof.
  intros Hpos. revert i.
  induction fuel as [|fuel IH]; intros i Hfuel; [lia|].
  cbn [multicallLoop].
  destruct (i <? length calls)%nat eqn:Hi.
  - apply Nat.ltb_lt in Hi. rewrite batch_extends. apply IH. lia.
  - apply Nat.ltb_ge in Hi. rewrite take_ge by exact Hi. reflexivity.
Qed.

(** With a batch size of zero the loop never advances. *)
Lemma multicallLoop_zero_batch (calls : list Call) (fuel i : nat)
    (results : list (option T)) :
  i < length calls ->
  multicallLoop invoke calls 0 fuel i results = None.
Proof.
  intros Hi. revert results.
  induction fuel as [|fuel IH]; intros results; [reflexivity|].
  cbn [multicallLoop].
  apply Nat.ltb_lt in Hi. rewrite Hi. rewrite Nat.add_0_r. apply IH.
Qed.

End Batching.

(** C8.  For every ordered list of calls and every positive batch size the
    helper returns (enough iterations being allowed: one more than the number
    of calls) a list of the same length whose entry at [i] is the result of
    the call at [i], or [null] when that call failed; an entry depends on its
    own call only. *)
Theorem multicall_order {Call T E : Type} (invoke : Call -> Outcome T E)
    (calls : list Call) (batchSize fuel : nat) :
  0 < batchSize ->
  length calls < fuel ->
  exists results,
    Transactions.multicall invoke fuel calls (Some batchSize) = Some results
    /\ length results = length calls
    /\ (forall i call,
          calls !! i = Some call ->
          results !! i = Some match invoke call with
                              | Resolved v => Some v
                              | Rejected _ => None
                              end).
Proof.
  intros Hpos Hfuel.
  exists (map (Transactions.entry invoke) calls).
  split; [|split].
  - unfold Transactions.multicall. simpl.
    apply (multicallLoop_run invoke calls batchSize fuel 0 Hpos). lia.
  - apply length_map.
  - intros i call Hcall.
    rewrite list_lookup_fmap, Hcall. simpl. rewrite entry_invoke. reflexivity.
Qed.

(** C8 at a concrete input: twenty-five calls in batches of ten, the call at
    index 14 failing. *)
Lemma multicall_order_witness :
  exists results,
    Transactions.multicall
      (fun n : nat => if (n =? 14)%nat then Rejected tt else Resolved n)
      26 (seq 0 25) (Some 10) = Some results
    /\ length results = length (seq 0 25)
    /\ (forall i call,
          seq 0 25 !! i = Some call ->
          results !! i = Some match (if (call =? 14)%nat then Rejected tt
                                     else Resolved call) with
                              | Resolved v => Some v
                              | Rejected _ => None
                              end).
Proof.
  apply (multicall_order
           (fun n : nat => if (n =? 14)%nat then Rejected tt else Resolved n)
           (seq 0 25) 10 26); simpl; lia.
Defined.

Example multicall_25_by_10 :
  Transactions.multicall
    (fun n : nat => if (n =? 14)%nat then Rejected tt else Resolved n)
    4 (seq 0 25) None
  = Some (map (fun n : nat => if (n =? 14)%nat then None else Some n) (seq 0 25)).
Proof. vm_compute. reflexivity. Qed.

(** ** The error logger *)

Section Logger.

(** [slice] with a negative start keeps the last entries. *)
Lemma slice_last {A} (n : nat) (l : list A) :
  0 < n -> Js.slice (- Z.of_nat n) l = drop (length l - n) l.
Proof.
  intros Hn. unfold Js.slice.
  assert (H : (- Z.of_nat n <? 0)%Z = true) by (apply Z.ltb_lt; lia).
  rewrite H. f_equal. lia.
Qed.

(** [slice(-0)] is [slice(0)]: the whole array. *)
Lemma slice_zero {A} (l : list A) : Js.slice (- 0) l = l.
Proof.
  unfold Js.slice.
  change (- 0 <? 0)%Z with false. cbv iota.
  replace (Z.to_nat (Z.min (- 0) (Z.of_nat (length l)))) with 0 by lia.
  reflexivity.
Qed.

(** After [log] the array holds the new entry last and, before it, the most
    recent of the old entries, at most 100 in all. *)
Lemma log_keeps_newest (now : Z) (err : Web3Error) (ctx : option string)
    (logs : list LogEntry) :
  let all := (logs ++ [mkLogEntry now err ctx])%list in
  log now err ctx logs = drop (length all - 100) all
  /\ length (log now err ctx logs) = Nat.min 100 (length all).
Proof.
  cbv zeta. unfold log.
  set (all := (logs ++ [mkLogEntry now err ctx])%list).
  destruct (100 <? length all)%nat eqn:Hlen.
  - apply Nat.ltb_lt in Hlen.
    change (-100)%Z with (- Z.of_nat 100)%Z.
    rewrite (slice_last 100 all) by lia.
    split; [reflexivity|]. rewrite length_drop. lia.
  - apply Nat.ltb_ge in Hlen.
    replace (length all - 100) with 0 by lia.
    split; [reflexivity|]. lia.
Qed.

Lemma runOp_bounded (logs : list LogEntry) (op : LoggerOp) :
  length (runOp logs op) <= 100.
Proof.
  destruct op as [now err ctx|]; simpl; [|lia].
  destruct (log_keeps_newest now err ctx logs) as [_ ->]. lia.
Qed.

(** The invariant: at most 100 entries after any sequence of operations. *)
Lemma runOps_bounded (ops : list LoggerOp) : length (runOps ops) <= 100.
Proof.
  unfold runOps.
  destruct ops as [|op ops] using rev_ind; [simpl; lia|].
  rewrite fold_left_app. simpl. apply runOp_bounded.
Qed.

(** For a positive limit the result is the last [limit] entries. *)
Lemma getRecentErrors_positive (limit : nat) (logs : list LogEntry) :
  0 < limit ->
  getRecentErrors (Some (Z.of_nat limit)) logs = drop (length logs - limit) logs
  /\ length (getRecentErrors (Some (Z.of_nat limit)) logs) <= limit.
Proof.
  intros Hl. unfold getRecentErrors. simpl.
  rewrite (slice_last limit logs Hl).
  split; [reflexivity|]. rewrite length_drop. lia.
Qed.

(** C10: the code at the failing input.  The array never holds more than 100
    entries and [log] drops the oldest, but [getRecentErrors(0)] returns the
    whole array, not at most zero entries: [slice(-0)] is [slice(0)]. *)
Theorem getRecentErrors_zero_returns_all :
  (forall logs, getRecentErrors (Some 0%Z) logs = logs)
  /\ (forall ops, length (runOps ops) <= 100)
  /\ let err := mkWeb3Error NETWORK_ERROR "Network connection failed"
                  (Some (CodeStr "NETWORK_ERROR")) None in
     let logs := runOps [OpLog 1 err None; OpLog 2 err None; OpLog 3 err None] in
     length (getRecentErrors (Some 0%Z) logs) = 3
     /\ length (getRecentErrors (Some 1%Z) logs) = 1.
Proof.
  split; [intros logs; unfold getRecentErrors; simpl; apply slice_zero|].
  split; [apply runOps_bounded|].
  vm_compute. split; reflexivity.
Qed.

End Logger.

(** ** Mined-but-reverted transactions *)

Section Reverted.
Import Transactions.

(** The failure [executeSecureTransaction] throws for a reverted receipt is
    classified as a contract error. *)
Lemma reverted_classified :
  type (parse (ThrownOther (Error "Transaction reverted"))) = CONTRACT_ERROR.
Proof. vm_compute. reflexivity. Qed.

(** [executeSecureTransaction] never returns a receipt whose status is 0. *)
Lemma executeSecureTransaction_no_reverted_receipt
    (network : Outcome Z JsError) (sendTransaction : Outcome TransactionResponse JsError)
    (race : Race) (receipt : TransactionReceipt) :
  executeSecureTransaction network sendTransaction race = Resolved receipt ->
  status receipt <> Some 0%Z.
Proof.
  unfold executeSecureTransaction.
  destruct network as [c|e]; [|discriminate].
  destruct (negb _); [discriminate|].
  destruct sendTransaction as [tx|e]; [|discriminate].
  destruct race as [[[r|]|e]|]; try discriminate.
  case_bool_decide as Hs; [discriminate|].
  intros [= <-]. exact Hs.
Qed.

(** C6: the code at the failing input.  A transaction whose [wait()] resolves
    with a receipt of status 0 leaves [TransactionManager] in the state
    [success], with no error recorded, and [executeTransaction] returns the
    receipt; [executeSecureTransaction], given the same receipt, throws an
    error that the classifier maps to [CONTRACT_ERROR]. *)
Theorem executeTransaction_reverted_receipt :
  let reverted := mkReceipt (Some 0%Z) in
  let tx := mkResponse "0x88df016429689c079f3b2f6ad39fa052532c56795b733da78a91ebe6a713944b" in
  let chain := mkChain (Resolved 100000%Z) (fun _ => Resolved tx) (Resolved reverted) in
  let run := executeTransaction chain idleState in
  txStatus (finalState run) = success
  /\ txError (finalState run) = None
  /\ settled run = Resolved reverted
  /\ map txStatus (notified run) = [pending; pending; success]
  /\ (exists failure,
        executeSecureTransaction (Resolved 1%Z) (Resolved tx)
          (WaitSettled (Resolved (Some reverted))) = Rejected failure
        /\ type (parse (ThrownOther failure)) = CONTRACT_ERROR).
Proof.
  cbv zeta. repeat split.
  exists (Error "Transaction reverted"). split; vm_compute; reflexivity.
Qed.

End Reverted.

(** ** Reporting *)

Section ReportingFacts.
Import Reporting.

Local Ltac split_conditions :=
  repeat match goal with
         | |- context [if ?b then _ else _] => destruct b
         | |- context [match ?o with Some _ => _ | None => _ end] => destruct o
         | |- context [match ?s with EmptyString => _ | String _ _ => _ end] => destruct s
         end.

(** X1.  The three classifiers single out the same failures as user
    rejections and as balance shortfalls: [ErrorParser.parse] gives the kind
    exactly when [TransactionUtils.parseTransactionError] and
    [ContractErrorHandler.handle] give their message for it. *)
Theorem classifiers_agree_on_rejection (e : JsError) :
  (type (parse (ThrownOther e)) = USER_REJECTED
     <-> parseTransactionError e = "Transaction rejected by user")
  /\ (type (parse (ThrownOther e)) = USER_REJECTED
     <-> handle e = "Transaction rejected by user")
  /\ (type (parse (ThrownOther e)) = INSUFFICIENT_FUNDS
     <-> parseTransactionError e = "Insufficient funds for transaction")
  /\ (type (parse (ThrownOther e)) = INSUFFICIENT_FUNDS
     <-> handle e = "Insufficient funds for gas").
Proof.
  simpl. rewrite parseOther_kind.
  unfold codeKind, userDeclined, balanceShortfall, parseTransactionError, handle.
  destruct (codeIs e (CodeNum 4001) || codeIs e (CodeStr "ACTION_REJECTED")).
  { repeat split; intros; try reflexivity; discriminate. }
  destruct (codeIs e (CodeStr "INSUFFICIENT_FUNDS")).
  { repeat split; intros; try reflexivity; discriminate. }
  assert (Hk : (if transportFailure e then NETWORK_ERROR
                else if carriesRevertReason e || messageMatchesRevert e then CONTRACT_ERROR
                else if estimateFailed e then CONTRACT_ERROR else UNKNOWN_ERROR)
               <> USER_REJECTED
               /\ (if transportFailure e then NETWORK_ERROR
                   else if carriesRevertReason e || messageMatchesRevert e then CONTRACT_ERROR
                   else if estimateFailed e then CONTRACT_ERROR else UNKNOWN_ERROR)
                  <> INSUFFICIENT_FUNDS).
  { split; split_conditions; discriminate. }
  destruct Hk as [Hu Hi].
  repeat split; intros H; try (contradiction (Hu H)); try (contradiction (Hi H));
    exfalso; revert H; split_conditions; simpl; discriminate.
Qed.

(** X2.  Whatever raw failure is classified, the text shown to the user is not
    empty, both with [getUserFriendlyMessage] on the classified error and with
    [getHumanReadableError]. *)
Theorem friendly_message_not_empty (e : JsError) :
  getUserFriendlyMessage (parse (ThrownOther e)) <> EmptyString
  /\ getHumanReadableError (ThrownOther e) <> EmptyString.
Proof.
  assert (H : getUserFriendlyMessage (parse (ThrownOther e)) <> EmptyString).
  { pose proof (parseOther_kind e) as Hk.
    pose proof (parseOther_never_validation e) as Hv.
    unfold getUserFriendlyMessage. simpl.
    destruct (type (parseOther e)); try discriminate. contradiction. }
  split; [exact H|].
  unfold getHumanReadableError.
  destruct (firstPattern COMMON_ERRORS _) as [h|] eqn:Hp; [|exact H].
  revert Hp. unfold COMMON_ERRORS. cbn [firstPattern].
  split_conditions; intros [= <-]; discriminate.
Qed.

(** X3.  A failing wrapped function ([Web3ErrorBoundary.wrapSync] and
    [wrapAsync]) rethrows the classified error and leaves it as the most recent
    log entry, under the function's name, however full the log was; a
    succeeding one leaves the log alone. *)
Theorem wrap_logs_what_it_throws {T} (name : string) (now : Z)
    (settled : Outcome T Failure) (logs : list LogEntry) :
  match settled with
  | Resolved v => wrap name now settled logs = (Resolved v, logs)
  | Rejected f =>
      fst (wrap name now settled logs) = Rejected (parse f)
      /\ getRecentErrors (Some 1%Z) (snd (wrap name now settled logs))
         = [mkLogEntry now (parse f) (Some name)]
      /\ length (snd (wrap name now settled logs)) <= 100
  end.
Proof.
  destruct settled as [v|f]; [reflexivity|]. simpl.
  split; [reflexivity|].
  destruct (log_keeps_newest now (parse f) (Some name) logs) as [Hlog Hlen].
  split; [|rewrite Hlen; lia].
  assert (Hrecent : getRecentErrors (Some 1%Z) (log now (parse f) (Some name) logs)
                    = drop (length (log now (parse f) (Some name) logs) - 1)
                        (log now (parse f) (Some name) logs))
    by (apply (slice_last 1); lia).
  rewrite Hrecent, Hlog.
  clear Hrecent Hlog Hlen.
  set (e := mkLogEntry now (parse f) (Some name)).
  assert (Hk : length (logs ++ [e])%list - 100 <= length logs)
    by (rewrite length_app; simpl; lia).
  revert Hk. generalize (length (logs ++ [e])%list - 100). intros k Hk.
  rewrite drop_app_le by exact Hk.
  rewrite length_app. simpl.
  replace (length (drop k logs) + 1 - 1) with (length (drop k logs)) by lia.
  apply drop_app_length.
Qed.

(** X4.  The log is always the last hundred entries logged since it was last
    cleared (or since the logger was created). *)
Theorem logger_keeps_last_hundred (ops : list LoggerOp) (entries : list LogEntry) :
  runOps (map logOp entries) = drop (length entries - 100) entries
  /\ runOps (ops ++ OpClear :: map logOp entries)%list
     = drop (length entries - 100) entries.
Proof.
  assert (H : forall start, fold_left runOp (map logOp entries) (drop (length start - 100) start)
              = drop (length (start ++ entries) - 100) (start ++ entries)%list).
  { induction entries as [|e es IH]; intros start.
    - simpl. rewrite app_nil_r. reflexivity.
    - simpl.
      destruct (log_keeps_newest (timestamp e) (error e) (context e)
                  (drop (length start - 100) start)) as [Hlog _].
      rewrite Hlog. clear Hlog.
      replace (mkLogEntry (timestamp e) (error e) (context e)) with e by (destruct e; reflexivity).
      rewrite length_app, length_drop. simpl.
      rewrite <- (drop_app_le start [e]) by lia.
      rewrite drop_drop.
      replace (length start - 100 + (length start - (length start - 100) + 1 - 100))
        with (length (start ++ [e]) - 100) by (rewrite length_app; simpl; lia).
      rewrite IH. rewrite <- app_assoc. reflexivity. }
  split.
  - unfold runOps. apply (H []).
  - unfold runOps. rewrite fold_left_app. simpl. apply (H []).
Qed.

(** X5 at a concrete input: the last two of three logged errors. *)
Lemma getRecentErrors_positive_witness :
  let err := mkWeb3Error NETWORK_ERROR "Network connection failed"
               (Some (CodeStr "NETWORK_ERROR")) None in
  let logs := runOps [OpLog 1 err None; OpLog 2 err None; OpLog 3 err None] in
  getRecentErrors (Some (Z.of_nat 2)) logs = drop (length logs - 2) logs
  /\ length (getRecentErrors (Some (Z.of_nat 2)) logs) <= 2.
Proof.
  apply (getRecentErrors_positive 2
           (runOps [OpLog 1 (mkWeb3Error NETWORK_ERROR "Network connection failed"
                               (Some (CodeStr "NETWORK_ERROR")) None) None;
                    OpLog 2 (mkWeb3Error NETWORK_ERROR "Network connection failed"
                               (Some (CodeStr "NETWORK_ERROR")) None) None;
                    OpLog 3 (mkWeb3Error NETWORK_ERROR "Network connection failed"
                               (Some (CodeStr "NETWORK_ERROR")) None) None])).
  lia.
Defined.

End ReportingFacts.

(** ** Gas limits and transaction building *)

Section GasFacts.
Import GasUtils GasSecurity SecureTransactions.

(** X6.  On a non-negative estimate the default margin adds a fifth of the
    estimate, rounded down: the limit is never below the estimate, and an
    estimate under five units gets no margin at all.  With any non-negative
    margin the limit is at least the estimate. *)
Theorem buffer_adds_a_fifth (g : Z) (bufferPercent : Z) :
  (0 <= g)%Z ->
  estimateGasWithBuffer (E := JsError) (Resolved g) None = Resolved (g + g / 5)%Z
  /\ ((g < 5)%Z -> estimateGasWithBuffer (E := JsError) (Resolved g) None = Resolved g)
  /\ ((0 <= bufferPercent)%Z ->
      exists limit,
        estimateGasWithBuffer (E := JsError) (Resolved g) (Some bufferPercent)
          = Resolved limit
        /\ (g <= limit)%Z).
Proof.
  intros Hg.
  assert (H5 : Z.quot (g * (100 + 20)) 100 = (g + g / 5)%Z).
  { rewrite Z.quot_div_nonneg by lia.
    symmetry. apply Z.div_unique with (r := (20 * (g mod 5))%Z).
    - left. pose proof (Z.mod_pos_bound g 5). lia.
    - pose proof (Z.div_mod g 5). lia. }
  split; [simpl; f_equal; exact H5|].
  split.
  - intros Hlt. simpl. f_equal. rewrite H5, Z.div_small by lia. lia.
  - intros Hb. eexists. split; [reflexivity|]. simpl.
    rewrite Z.quot_div_nonneg by lia.
    apply Z.div_le_lower_bound; lia.
Qed.

Lemma buffer_adds_a_fifth_witness :
  estimateGasWithBuffer (E := JsError) (Resolved 21004%Z) None
    = Resolved (21004 + 21004 / 5)%Z
  /\ ((21004 < 5)%Z ->
      estimateGasWithBuffer (E := JsError) (Resolved 21004%Z) None = Resolved 21004%Z)
  /\ ((0 <= 50)%Z ->
      exists limit,
        estimateGasWithBuffer (E := JsError) (Resolved 21004%Z) (Some 50%Z)
          = Resolved limit
        /\ (21004 <= limit)%Z).
Proof. apply (buffer_adds_a_fifth 21004 50). lia. Defined.

(** X7.  [secureGasEstimation] accepts an estimate exactly from 16154 units
    up, and then returns the estimate plus 30 percent capped at the block gas
    limit, a value between 21000 and 30000000; a lower estimate is reported
    with the generic message, not with the gas-limit message. *)
Theorem secureGasEstimation_threshold (g : Z) :
  secureGasEstimation (Resolved g)
  = (if (g <? 16154)%Z
     then Rejected "Unable to estimate gas - transaction may fail"
     else Resolved (Z.min (Z.quot (g * 130) 100) 30000000))
  /\ (forall limit,
        secureGasEstimation (Resolved g) = Resolved limit ->
        (21000 <= limit <= 30000000)%Z).
Proof.
  assert (Hq : (g < 16154 <-> Z.quot (g * 130) 100 < 21000)%Z).
  { pose proof (Z.quot_rem' (g * 130) 100) as Hqr.
    destruct (Z_lt_le_dec g 0) as [Hneg|Hpos].
    - pose proof (Z.rem_bound_pos_neg (g * 130) 100 ltac:(lia) ltac:(lia)). lia.
    - pose proof (Z.rem_bound_pos (g * 130) 100 ltac:(lia) ltac:(lia)). lia. }
  assert (Hmain : secureGasEstimation (Resolved g)
          = (if (g <? 16154)%Z
             then Rejected "Unable to estimate gas - transaction may fail"
             else Resolved (Z.min (Z.quot (g * 130) 100) 30000000))).
  { unfold secureGasEstimation, validateGasLimit, MAX_GAS_LIMIT, MIN_GAS_LIMIT.
    set (q := Z.quot (g * 130) 100) in *.
    destruct (g <? 16154)%Z eqn:Hg.
    - apply Z.ltb_lt in Hg. apply Hq in Hg.
      destruct (q >? 30000000)%Z eqn:Hcap; [apply Z.gtb_lt in Hcap; lia|].
      assert (Hlow : (q <? 21000)%Z = true) by (apply Z.ltb_lt; lia).
      rewrite Hlow. reflexivity.
    - apply Z.ltb_ge in Hg.
      assert (Hq' : (21000 <= q)%Z) by (destruct (Z_lt_le_dec q 21000); [apply Hq in l; lia | lia]).
      destruct (q >? 30000000)%Z eqn:Hcap.
      + apply Z.gtb_lt in Hcap. simpl. f_equal. lia.
      + assert (Hle : (q <= 30000000)%Z)
          by (destruct (Z_lt_le_dec 30000000 q) as [Hlt|]; [apply Z.gtb_lt in Hlt; congruence | lia]).
        assert (Hlow : (q <? 21000)%Z = false) by (apply Z.ltb_ge; lia).
        rewrite Hlow, Hcap. f_equal. lia. }
  split; [exact Hmain|].
  intros limit. rewrite Hmain.
  destruct (g <? 16154)%Z eqn:Hg; [discriminate|].
  apply Z.ltb_ge in Hg. intros [= <-].
  assert ((21000 <= Z.quot (g * 130) 100)%Z)
    by (destruct (Z_lt_le_dec (Z.quot (g * 130) 100) 21000) as [l|]; [apply Hq in l; lia | lia]).
  lia.
Qed.

End GasFacts.
Section BuildFacts.
Import GasSecurity SecureTransactions.
Variable getAddress : string -> option string.
Variable formatGwei : Z -> string.

(** X8.  A request that [buildSecureTransaction] returns has a recipient that
    passed address validation, a non-negative value, data that is [0x] followed
    by hexadecimal digits only, a gas price of at most 100 gwei, and the
    caller's fields unchanged; its gas limit, when given, lies between 21000
    and 30000000, except that a gas limit of 0 passes unchecked. *)
Theorem buildSecureTransaction_validated (params : Params) (req : TransactionRequest) :
  buildSecureTransaction getAddress formatGwei params = Resolved req ->
  validateAddress getAddress (to params) = None
  /\ req = mkRequest (to params) (Js.defaulted (value params) 0%Z)
             (Js.defaulted (data params) "0x") (gasLimit params) (gasPrice params)
             (nonce params)
  /\ (0 <= reqValue req)%Z
  /\ isHexData (reqData req) = true
  /\ (forall g, reqGasLimit req = Some g -> g = 0%Z \/ (21000 <= g <= 30000000)%Z)
  /\ (forall p, reqGasPrice req = Some p -> (p <= MAX_GAS_PRICE)%Z).
Proof.
  unfold buildSecureTransaction.
  destruct (validateAddress getAddress (to params)) as [err|] eqn:Hto; [discriminate|].
  destruct (isZeroAddress getAddress (to params) && _); [discriminate|].
  destruct (Js.defaulted (value params) 0 <? 0)%Z eqn:Hval; [discriminate|].
  destruct (negb (bool_decide (Js.defaulted (data params) "0x" = "0x"))
            && negb (isHexData (Js.defaulted (data params) "0x"))) eqn:Hdata;
    [discriminate|].
  destruct (match truthyBigint (gasLimit params) with
            | Some g => validateGasLimit g
            | None => None
            end) as [err|] eqn:Hgas; [discriminate|].
  destruct (match truthyBigint (gasPrice params) with
            | Some p => validateGasPrice formatGwei p MAX_GAS_PRICE
            | None => None
            end) as [err|] eqn:Hprice; [discriminate|].
  intros [= <-]. simpl.
  split; [reflexivity|]. split; [reflexivity|].
  split; [apply Z.ltb_ge in Hval; exact Hval|].
  split.
  { apply andb_false_iff in Hdata. destruct Hdata as [Hd|Hd].
    - apply negb_false_iff, bool_decide_eq_true_1 in Hd. rewrite Hd. reflexivity.
    - apply negb_false_iff in Hd. exact Hd. }
  split.
  - intros g Hg. rewrite Hg in Hgas.
    destruct (Z.eq_dec g 0%Z) as [->|Hnz]; [left; reflexivity|right].
    assert (Ht : truthyBigint (Some g) = Some g) by (destruct g; [contradiction| |]; reflexivity).
    rewrite Ht in Hgas. unfold validateGasLimit, MIN_GAS_LIMIT, MAX_GAS_LIMIT in Hgas.
    destruct (g <? 21000)%Z eqn:Hlo; [discriminate|].
    destruct (g >? 30000000)%Z eqn:Hhi; [discriminate|].
    apply Z.ltb_ge in Hlo. rewrite Z.gtb_ltb in Hhi. apply Z.ltb_ge in Hhi. lia.
  - intros p Hp. rewrite Hp in Hprice.
    destruct (Z.eq_dec p 0%Z) as [->|Hnz]; [unfold MAX_GAS_PRICE; lia|].
    assert (Ht : truthyBigint (Some p) = Some p) by (destruct p; [contradiction| |]; reflexivity).
    rewrite Ht in Hprice. unfold validateGasPrice in Hprice.
    destruct (p >? MAX_GAS_PRICE)%Z eqn:Hhi; [discriminate|].
    rewrite Z.gtb_ltb in Hhi. apply Z.ltb_ge in Hhi. exact Hhi.
Qed.

(** X9.  The zero-address guard of [buildSecureTransaction] fires only when
    the caller passes the empty string as data: with the default data, or
    with any other data, a transfer to the zero address is not refused by
    it. *)
Theorem zero_address_guard_needs_empty_data (params : Params) :
  buildSecureTransaction getAddress formatGwei params
    = Rejected "Cannot send ETH to zero address without data" ->
  data params = Some EmptyString /\ isZeroAddress getAddress (to params) = true.
Proof.
  unfold buildSecureTransaction.
  destruct (validateAddress getAddress (to params)) as [err|] eqn:Hto.
  { unfold validateAddress in Hto.
    destruct (to params); [injection Hto as <-; discriminate|].
    destruct (getAddress _); [discriminate|]. injection Hto as <-. discriminate. }
  destruct (isZeroAddress getAddress (to params)) eqn:Hzero; simpl.
  - destruct (data params) as [[|c d]|]; simpl.
    + intros _. split; reflexivity.
    + destruct (_ <? 0)%Z; [discriminate|].
      destruct (negb _ && negb _); [discriminate|].
      destruct (match truthyBigint (gasLimit params) with Some g => validateGasLimit g | None => None end)
        as [err|] eqn:Hgas.
      { destruct (truthyBigint (gasLimit params)); [|discriminate].
        unfold validateGasLimit in Hgas.
        destruct (_ <? _)%Z; [injection Hgas as <-; discriminate|].
        destruct (_ >? _)%Z; [injection Hgas as <-; discriminate|discriminate]. }
      destruct (match truthyBigint (gasPrice params) with
                | Some p => validateGasPrice formatGwei p MAX_GAS_PRICE | None => None end)
        as [err|] eqn:Hprice; [|discriminate].
      destruct (truthyBigint (gasPrice params)); [|discriminate].
      unfold validateGasPrice in Hprice.
      destruct (_ >? _)%Z; [injection Hprice as <-; simpl; discriminate|discriminate].
    + destruct (_ <? 0)%Z; [discriminate|]. simpl.
      destruct (match truthyBigint (gasLimit params) with Some g => validateGasLimit g | None => None end)
        as [err|] eqn:Hgas.
      { destruct (truthyBigint (gasLimit params)); [|discriminate].
        unfold validateGasLimit in Hgas.
        destruct (_ <? _)%Z; [injection Hgas as <-; discriminate|].
        destruct (_ >? _)%Z; [injection Hgas as <-; discriminate|discriminate]. }
      destruct (match truthyBigint (gasPrice params) with
                | Some p => validateGasPrice formatGwei p MAX_GAS_PRICE | None => None end)
        as [err|] eqn:Hprice; [|discriminate].
      destruct (truthyBigint (gasPrice params)); [|discriminate].
      unfold validateGasPrice in Hprice.
      destruct (_ >? _)%Z; [injection Hprice as <-; simpl; discriminate|discriminate].
  - destruct (_ <? 0)%Z; [discriminate|].
    destruct (negb _ && negb _); [discriminate|].
    destruct (match truthyBigint (gasLimit params) with Some g => validateGasLimit g | None => None end)
      as [err|] eqn:Hgas.
    { destruct (truthyBigint (gasLimit params)); [|discriminate].
      unfold validateGasLimit in Hgas.
      destruct (_ <? _)%Z; [injection Hgas as <-; discriminate|].
      destruct (_ >? _)%Z; [injection Hgas as <-; discriminate|discriminate]. }
    destruct (match truthyBigint (gasPrice params) with
              | Some p => validateGasPrice formatGwei p MAX_GAS_PRICE | None => None end)
      as [err|] eqn:Hprice; [|discriminate].
    destruct (truthyBigint (gasPrice params)); [|discriminate].
    unfold validateGasPrice in Hprice.
    destruct (_ >? _)%Z; [injection Hprice as <-; simpl; discriminate|discriminate].
Qed.

End BuildFacts.

(** X8 at a concrete input: a plain transfer with a gas limit of 0. *)
Lemma buildSecureTransaction_validated_witness :
  let getAddress := fun a : string => Some a in
  let formatGwei := fun _ : Z => "0" in
  let params := SecureTransactions.mkParams "0x52908400098527886E0F7030069857D2E4169EE7"
                  (Some 1%Z) None (Some 0%Z) None None in
  let req := SecureTransactions.mkRequest "0x52908400098527886E0F7030069857D2E4169EE7"
               1%Z "0x" (Some 0%Z) None None in
  SecureTransactions.validateAddress getAddress (SecureTransactions.to params) = None
  /\ req = SecureTransactions.mkRequest (SecureTransactions.to params)
             (Js.defaulted (SecureTransactions.value params) 0%Z)
             (Js.defaulted (SecureTransactions.data params) "0x")
             (SecureTransactions.gasLimit params) (SecureTransactions.gasPrice params)
             (SecureTransactions.nonce params)
  /\ (0 <= SecureTransactions.reqValue req)%Z
  /\ SecureTransactions.isHexData (SecureTransactions.reqData req) = true
  /\ (forall g, SecureTransactions.reqGasLimit req = Some g ->
        g = 0%Z \/ (21000 <= g <= 30000000)%Z)
  /\ (forall p, SecureTransactions.reqGasPrice req = Some p ->
        (p <= SecureTransactions.MAX_GAS_PRICE)%Z).
Proof.
  apply (buildSecureTransaction_validated (fun a : string => Some a) (fun _ : Z => "0")
           (SecureTransactions.mkParams "0x52908400098527886E0F7030069857D2E4169EE7"
              (Some 1%Z) None (Some 0%Z) None None)).
  reflexivity.
Defined.

(** X9 at a concrete input: the zero address with the empty string as data. *)
Lemma zero_address_guard_witness :
  let getAddress := fun a : string => Some a in
  let params := SecureTransactions.mkParams SecureTransactions.ZeroAddress
                  None (Some EmptyString) None None None in
  SecureTransactions.data params = Some EmptyString
  /\ SecureTransactions.isZeroAddress getAddress (SecureTransactions.to params) = true.
Proof.
  apply (zero_address_guard_needs_empty_data (fun a : string => Some a) (fun _ : Z => "0")
           (SecureTransactions.mkParams SecureTransactions.ZeroAddress
              None (Some EmptyString) None None None)).
  reflexivity.
Defined.

(** ** Connecting, restoring a session, wallet events *)

Section SessionFacts.
Import Wallet Session.


Lemma connect_succeeds (up : Upstream) (h : Hook)
    (account : string) (rest : list string) (signer : JsonRpcSigner) (networkChainId : Z) :
  ethereum h = true ->
  accountsReply up = Resolved (account :: rest) ->
  signerReply up = Resolved signer ->
  networkReply up = Resolved networkChainId ->
  runToEnd up (connect h)
  = mkHook (mkWalletState (Some account) (Some NewBrowserProvider) (Some signer)
              (Some networkChainId) false None)
      (<["walletConnected" := "true"]> (localStorage h)) true
      (requests h ++ [EthRequestAccounts; GetSigner; GetNetwork])%list.
Proof.
  intros Heth Hacc Hsig Hnet. unfold runToEnd, connect; simpl.
  rewrite Heth; simpl. rewrite Hacc; simpl. rewrite Hsig; simpl. rewrite Hnet; simpl.
  unfold setItem, updateState, issue; simpl. rewrite Heth.
  rewrite <- !app_assoc. reflexivity.
Qed.

(** X11.  After a successful [connect] and a page reload, [autoConnect]
    restores the same address, provider, signer and chain id when the wallet
    still returns the same account and network, never sets [isConnecting], and
    sends no account request that would prompt the user. *)
Theorem autoConnect_restores (up : Upstream) (h : Hook)
    (account : string) (rest : list string) (signer : JsonRpcSigner) (networkChainId : Z) :
  ethereum h = true ->
  accountsReply up = Resolved (account :: rest) ->
  signerReply up = Resolved signer ->
  networkReply up = Resolved networkChainId ->
  let connected := runToEnd up (connect h) in
  let restored := runToEnd up (autoConnect (reload connected)) in
  state restored = state connected
  /\ address (state restored) = Some account
  /\ chainId (state restored) = Some networkChainId
  /\ accountRequests restored = 0
  /\ EveryStep (fun a b => isConnecting (state b) = isConnecting (state a))
       (snd (autoConnect (reload connected))).
Proof.
  intros Heth Hacc Hsig Hnet. cbv zeta.
  rewrite (connect_succeeds up h account rest signer networkChainId Heth Hacc Hsig Hnet).
  set (connected := mkHook _ _ _ _).
  assert (Hmark : localStorage (reload connected) !! "walletConnected" = Some "true")
    by (simpl; apply lookup_insert_eq).
  unfold autoConnect.
  rewrite (bool_decide_eq_true_2 _ Hmark). simpl.
  unfold runToEnd; simpl. rewrite Hacc; simpl. rewrite Hsig; simpl. rewrite Hnet; simpl.
  split; [reflexivity|]. split; [reflexivity|]. split; [reflexivity|].
  split; [reflexivity|].
  apply every_accounts.
  - intros [[|a l]|e] g; reflexivity.
  - intros [[|a l]|e] g; simpl; try constructor.
    + intros [s|e] g'; reflexivity.
    + intros [s|e] g'; simpl; constructor; intros [c|e'] g''; simpl;
        try reflexivity; constructor.
Qed.

Lemma autoConnect_restores_witness :
  let up := mkUpstream (Resolved ["0x52908400098527886e0f7030069857d2e4169ee7"])
              (Resolved tt)
              (Resolved (mkSigner "0x52908400098527886e0f7030069857d2e4169ee7"))
              (Resolved 1%Z) in
  let connected := runToEnd up (connect (initialHook true)) in
  let restored := runToEnd up (autoConnect (reload connected)) in
  state restored = state connected
  /\ address (state restored) = Some "0x52908400098527886e0f7030069857d2e4169ee7"
  /\ chainId (state restored) = Some 1%Z
  /\ accountRequests restored = 0
  /\ EveryStep (fun a b => isConnecting (state b) = isConnecting (state a))
       (snd (autoConnect (reload connected))).
Proof.
  apply (autoConnect_restores
           (mkUpstream (Resolved ["0x52908400098527886e0f7030069857d2e4169ee7"])
              (Resolved tt)
              (Resolved (mkSigner "0x52908400098527886e0f7030069857d2e4169ee7"))
              (Resolved 1%Z))
           (initialHook true)
           "0x52908400098527886e0f7030069857d2e4169ee7" []
           (mkSigner "0x52908400098527886e0f7030069857d2e4169ee7") 1%Z);
    reflexivity.
Defined.

(** X12.  After [disconnect] a reloaded page restores nothing, whatever the
    wallet would answer; and when the marker is present but the wallet
    returns no account, [autoConnect] changes neither the state nor
    [localStorage]: the marker stays. *)
Theorem autoConnect_after_disconnect (up : Upstream) (h : Hook) :
  runToEnd up (autoConnect (reload (disconnect h))) = reload (disconnect h)
  /\ (accountsReply up = Resolved [] ->
      runToEnd up (autoConnect h) = h).
Proof.
  split.
  - unfold autoConnect.
    assert (Hgone : localStorage (reload (disconnect h)) !! "walletConnected" = None)
      by (simpl; apply lookup_delete_eq).
    rewrite bool_decide_eq_false_2 by (rewrite Hgone; discriminate).
    reflexivity.
  - intros Hacc. unfold autoConnect, runToEnd.
    destruct (bool_decide _); [|reflexivity].
    destruct (ethereum h); [|reflexivity].
    simpl. rewrite Hacc. reflexivity.
Qed.

(** X13.  After an [accountsChanged] event the address is the first account
    of the list, or none when the list is empty, whatever the state was; and
    handling the same event twice changes nothing more. *)
Theorem handleAccountsChanged_idempotent (accounts : list string) (h : Hook) :
  address (state (handleAccountsChanged accounts h)) = head accounts
  /\ handleAccountsChanged accounts (handleAccountsChanged accounts h)
     = handleAccountsChanged accounts h
  /\ handleDisconnect (handleDisconnect h) = handleDisconnect h.
Proof.
  assert (Hd : disconnect (disconnect h) = disconnect h).
  { unfold disconnect, removeItem, updateState, merge; simpl.
    f_equal. apply delete_delete_eq. }
  split; [destruct accounts; reflexivity|].
  split; [destruct accounts; [exact Hd|reflexivity]|exact Hd].
Qed.

End SessionFacts.

(** ** Transactions, batches and balances *)

Section TransactionFacts.
Import Transactions.

(** X14.  One execution on a fresh [TransactionManager] ends in [success]
    exactly when the call returns a receipt and in [error] otherwise; an error
    message is recorded exactly in the [error] state; the hash is recorded
    exactly when the transaction was sent; and the callbacks see [pending]
    first and the final state last. *)
Theorem executeTransaction_record (chain : Chain) :
  let run := executeTransaction chain idleState in
  let final := finalState run in
  (txStatus final = success <-> exists receipt, settled run = Resolved receipt)
  /\ (txStatus final = error <-> exists e, settled run = Rejected e)
  /\ (txStatus final = success \/ txStatus final = error)
  /\ (txError final <> None <-> txStatus final = error)
  /\ (txHash final <> None <->
      exists g tx, estimateGas chain = Resolved g
                   /\ send chain (Z.quot (g * 120) 100) = Resolved tx)
  /\ (txReceipt final <> None <-> txStatus final = success)
  /\ option_map txStatus (head (notified run)) = Some pending
  /\ last (notified run) = Some final.
Proof.
  cbv zeta. unfold executeTransaction, failWith.
  destruct (estimateGas chain) as [g|e] eqn:Hest; simpl.
  - destruct (send chain (Z.quot (g * 120) 100)) as [tx|e] eqn:Hsend; simpl.
    + destruct (wait chain) as [receipt|e]; simpl.
      * repeat split; intros; eauto; try discriminate; try congruence;
          try (destruct H as [? ?]; discriminate).
      * repeat split; intros; eauto; try discriminate; try congruence;
          try (destruct H as [? ?]; discriminate).
    + repeat split; intros; eauto; try discriminate; try congruence;
        try (destruct H as [? ?]; discriminate).
      destruct H as (g' & tx' & [= <-] & Hs). congruence.
  - repeat split; intros; eauto; try discriminate; try congruence;
      try (destruct H as [? ?]; discriminate).
    destruct H as (g' & tx' & Hg & _). discriminate.
Qed.

(** X15.  [executeSecureTransaction] returns a receipt only on a supported
    network, only the receipt the wait resolved with before the timer fired,
    and never one whose status is 0. *)
Theorem executeSecureTransaction_returns_only
    (network : Outcome Z JsError) (sendTransaction : Outcome TransactionResponse JsError)
    (race : Race) (receipt : TransactionReceipt) :
  executeSecureTransaction network sendTransaction race = Resolved receipt ->
  (exists networkChainId,
     network = Resolved networkChainId /\ networkChainId ∈ SUPPORTED_NETWORKS)
  /\ (exists tx, sendTransaction = Resolved tx)
  /\ race = WaitSettled (Resolved (Some receipt))
  /\ status receipt <> Some 0%Z.
Proof.
  unfold executeSecureTransaction.
  destruct network as [c|e]; [|discriminate].
  case_bool_decide as Hnet; simpl; [|discriminate].
  destruct sendTransaction as [tx|e]; [|discriminate].
  destruct race as [[[r|]|e]|]; try discriminate.
  case_bool_decide as Hs; [discriminate|].
  intros [= <-]. repeat split; eauto.
Qed.

Lemma executeSecureTransaction_returns_only_witness :
  (exists networkChainId,
     Resolved (E := JsError) 137%Z = Resolved networkChainId
     /\ networkChainId ∈ SUPPORTED_NETWORKS)
  /\ (exists tx, Resolved (E := JsError) (mkResponse "0x01") = Resolved tx)
  /\ WaitSettled (Resolved (Some (mkReceipt (Some 1%Z))))
     = WaitSettled (Resolved (Some (mkReceipt (Some 1%Z))))
  /\ status (mkReceipt (Some 1%Z)) <> Some 0%Z.
Proof.
  apply (executeSecureTransaction_returns_only (Resolved 137%Z)
           (Resolved (mkResponse "0x01"))
           (WaitSettled (Resolved (Some (mkReceipt (Some 1%Z)))))
           (mkReceipt (Some 1%Z))).
  reflexivity.
Defined.

End TransactionFacts.

Section BatchFacts.
Import Transactions Contracts.
Context {Call T E : Type}.
Variable invoke : Call -> Outcome T E.

Lemma multicallLoop_from_start (calls : list Call) (batchSize fuel : nat) :
  0 < batchSize -> length calls < fuel ->
  multicallLoop invoke calls batchSize fuel 0 [] = Some (map (entry invoke) calls).
Proof.
  intros Hpos Hfuel.
  apply (multicallLoop_run invoke calls batchSize fuel 0 Hpos). lia.
Qed.

(** X16.  The result of [multicall] does not depend on the batch size: any
    two positive batch sizes give the same list. *)
Theorem multicall_batch_size_irrelevant (calls : list Call) (b1 b2 fuel : nat) :
  0 < b1 -> 0 < b2 -> length calls < fuel ->
  multicall invoke fuel calls (Some b1) = multicall invoke fuel calls (Some b2)
  /\ multicall invoke fuel calls (Some b1) = multicall invoke fuel calls None.
Proof.
  intros H1 H2 Hfuel. unfold multicall. simpl.
  rewrite (multicallLoop_from_start calls b1 fuel H1 Hfuel).
  rewrite (multicallLoop_from_start calls b2 fuel H2 Hfuel).
  rewrite (multicallLoop_from_start calls 10 fuel) by lia.
  split; reflexivity.
Qed.

(** X17.  With a batch size of 0 and at least one call the loop of
    [multicall] never ends: no number of iterations yields a result. *)
Theorem multicall_zero_batch_never_returns (calls : list Call) (fuel : nat) :
  calls <> [] ->
  multicall invoke fuel calls (Some 0) = None.
Proof.
  intros Hne. unfold multicall. simpl.
  apply multicallLoop_zero_batch.
  destruct calls; [contradiction|simpl; lia].
Qed.

End BatchFacts.

Lemma multicall_batch_size_irrelevant_witness :
  let invoke := fun n : nat => if (n =? 14)%nat then Rejected tt else Resolved n in
  Transactions.multicall invoke 26 (seq 0 25) (Some 10)
    = Transactions.multicall invoke 26 (seq 0 25) (Some 7)
  /\ Transactions.multicall invoke 26 (seq 0 25) (Some 10)
     = Transactions.multicall invoke 26 (seq 0 25) None.
Proof.
  apply (multicall_batch_size_irrelevant
           (fun n : nat => if (n =? 14)%nat then Rejected tt else Resolved n)
           (seq 0 25) 10 7 26); simpl; lia.
Defined.

Lemma multicall_zero_batch_witness :
  Transactions.multicall (fun n : nat => Resolved (E := unit) n) 1000 [7] (Some 0) = None.
Proof.
  apply (multicall_zero_batch_never_returns (fun n : nat => Resolved (E := unit) n) [7] 1000).
  discriminate.
Defined.

Section BalanceFacts.
Import Transactions Contracts.
Context {E : Type}.
Variable formatEther : Z -> string.
Variable balanceOf : string -> Outcome Z E.

(** X18.  [getMultipleBalances] returns one entry per token address, in
    order, each with its own address; the balance is formatted when the call
    succeeded with a non-zero amount, and is [null] both when the call failed
    and when the balance is zero. *)
Theorem getMultipleBalances_zero_is_null (tokenAddresses : list string) (fuel : nat) :
  length tokenAddresses < fuel ->
  getMultipleBalances formatEther balanceOf fuel tokenAddresses
  = Some (map (fun address =>
                 (address,
                  match balanceOf address with
                  | Resolved b => if (b =? 0)%Z then None else Some (formatEther b)
                  | Rejected _ => None
                  end))
            tokenAddresses).
Proof.
  intros Hfuel. unfold getMultipleBalances, multicall. simpl.
  rewrite (multicallLoop_from_start balanceOf tokenAddresses 10 fuel) by lia.
  f_equal. apply list_eq. intros i.
  rewrite list_lookup_imap, list_lookup_fmap, list_lookup_fmap.
  destruct (tokenAddresses !! i) as [address|]; [|reflexivity].
  simpl. rewrite entry_invoke.
  destruct (balanceOf address); reflexivity.
Qed.

End BalanceFacts.

Lemma getMultipleBalances_witness :
  Contracts.getMultipleBalances (fun _ : Z => "1.0")
    (fun a : string => if String.eqb a "0xdead" then Rejected tt else Resolved 0%Z)
    3 ["0xdead"; "0xbeef"]
  = Some (map (fun address =>
                 (address,
                  match (if String.eqb address "0xdead" then Rejected tt else Resolved 0%Z) with
                  | Resolved b => if (b =? 0)%Z then None else Some "1.0"
                  | Rejected _ => None
                  end))
            ["0xdead"; "0xbeef"]).
Proof.
  apply (getMultipleBalances_zero_is_null (fun _ : Z => "1.0")
           (fun a : string => if String.eqb a "0xdead" then Rejected tt else Resolved 0%Z)
           ["0xdead"; "0xbeef"] 3).
  simpl. lia.
Defined.

(** ** Contract instances and cached calls *)

Section FactoryFacts.
Import Contracts.
Context {Abi Signer Provider : Type}.

(** X19.  [ContractFactory.getContract] hands out one instance per lower-cased
    address and per kind of runner: a second request whose address differs
    only in letter case, with any ABI and any signer, gets the instance
    created by the first request, bound to the first request's ABI and
    signer, and leaves the cache as it is. *)
Theorem getContract_first_instance_wins (provider : Provider)
    (address1 address2 : string) (abi1 abi2 : Abi) (signer1 signer2 : option Signer)
    (contracts : gmap string (Contract (Abi := Abi) (Signer := Signer) (Provider := Provider))) :
  Js.toLowerCase address1 = Js.toLowerCase address2 ->
  (is_Some signer1 <-> is_Some signer2) ->
  let first := getContract provider address1 abi1 signer1 contracts in
  getContract provider address2 abi2 signer2 (snd first) = (fst first, snd first).
Proof.
  intros Haddr Hkind. cbv zeta.
  assert (Hkey : contractKey address2 signer2 = contractKey address1 signer1).
  { unfold contractKey. rewrite Haddr.
    destruct signer1, signer2; try reflexivity.
    - destruct Hkind as [H _]. destruct (H (mk_is_Some _ _ eq_refl)); discriminate.
    - destruct Hkind as [_ H]. destruct (H (mk_is_Some _ _ eq_refl)); discriminate. }
  unfold getContract. rewrite Hkey.
  destruct (contracts !! contractKey address1 signer1) as [c|] eqn:Hc; simpl.
  - rewrite Hc. reflexivity.
  - rewrite lookup_insert_eq. reflexivity.
Qed.

End FactoryFacts.

Lemma getContract_first_instance_wins_witness :
  let first :=
    Contracts.getContract (Abi := string) (Signer := string) (Provider := unit) tt
      "0x52908400098527886E0F7030069857D2E4169EE7" "ERC20" (Some "alice") ∅ in
  Contracts.getContract tt "0x52908400098527886e0f7030069857d2e4169ee7" "ERC721"
    (Some "bob") (snd first)
  = (fst first, snd first).
Proof.
  apply (getContract_first_instance_wins (Abi := string) (Signer := string) (Provider := unit)
           tt "0x52908400098527886E0F7030069857D2E4169EE7"
           "0x52908400098527886e0f7030069857d2e4169ee7" "ERC20" "ERC721"
           (Some "alice") (Some "bob") ∅).
  - reflexivity.
  - split; intros _; eexists; reflexivity.
Defined.

Section CacheFacts.
Import Contracts.
Context {T E : Type}.

(** X20.  Once [ContractCallCache.get] has called the contract and stored the
    result, a later [get] for the same entry made less than 60000 ms after the
    stored time returns the stored result without calling the contract,
    whatever the contract would now answer; from 60000 ms on it calls again.
    A call that fails leaves the cache as it was. *)
Theorem cache_serves_within_ttl (key : string) (now0 stored : Z) (v : T)
    (cache : gmap string (T * Z)) (now later : Z) (call : Outcome T E) :
  called (get (E := E) key now0 stored (Resolved v) cache) = true ->
  let cache1 := cacheAfter (get (E := E) key now0 stored (Resolved v) cache) in
  cache1 !! key = Some (v, stored)
  /\ ((now - stored < 60000)%Z ->
      get key now later call cache1 = mkLookup (Resolved v) cache1 false)
  /\ ((60000 <= now - stored)%Z ->
      called (get key now later call cache1) = true
      /\ settledAs (get key now later call cache1) = call)
  /\ (forall e : E, cacheAfter (get key now later (Rejected e) cache1) = cache1).
Proof.
  intros Hcalled. cbv zeta.
  assert (H1 : cacheAfter (get (E := E) key now0 stored (Resolved v) cache)
               = <[key := (v, stored)]> cache).
  { revert Hcalled. unfold get.
    destruct (cache !! key) as [[d t]|]; [|reflexivity].
    destruct (now0 - t <? ttl)%Z; [discriminate|reflexivity]. }
  rewrite H1.
  assert (Hl : (<[key := (v, stored)]> cache) !! key = Some (v, stored))
    by apply lookup_insert_eq.
  split; [exact Hl|].
  split; [|split].
  - intros Hfresh. unfold get. rewrite Hl.
    assert (Hlt : (now - stored <? ttl)%Z = true) by (apply Z.ltb_lt; exact Hfresh).
    rewrite Hlt. reflexivity.
  - intros Hstale. unfold get. rewrite Hl.
    assert (Hge : (now - stored <? ttl)%Z = false) by (apply Z.ltb_ge; exact Hstale).
    rewrite Hge. destruct call; split; reflexivity.
  - intros e. unfold get. rewrite Hl.
    destruct (now - stored <? ttl)%Z; reflexivity.
Qed.

End CacheFacts.

Lemma cache_serves_within_ttl_witness :
  let cache1 :=
    Contracts.cacheAfter
      (Contracts.get (T := Z) (E := unit) "0xabc-balanceOf-[]" 0 5 (Resolved 42%Z) ∅) in
  cache1 !! "0xabc-balanceOf-[]" = Some (42%Z, 5%Z)
  /\ ((1000 - 5 < 60000)%Z ->
      Contracts.get (E := unit) "0xabc-balanceOf-[]" 1000 1001 (Resolved 43%Z) cache1
      = Contracts.mkLookup (Resolved 42%Z) cache1 false)
  /\ ((60000 <= 1000 - 5)%Z ->
      Contracts.called
        (Contracts.get (E := unit) "0xabc-balanceOf-[]" 1000 1001 (Resolved 43%Z) cache1)
      = true
      /\ Contracts.settledAs
           (Contracts.get (E := unit) "0xabc-balanceOf-[]" 1000 1001 (Resolved 43%Z) cache1)
         = Resolved 43%Z)
  /\ (forall e : unit,
        Contracts.cacheAfter
          (Contracts.get "0xabc-balanceOf-[]" 1000 1001 (Rejected e) cache1)
        = cache1).
Proof.
  apply (cache_serves_within_ttl (T := Z) (E := unit) "0xabc-balanceOf-[]" 0 5 42%Z ∅
           1000 1001 (Resolved 43%Z)).
  reflexivity.
Defined.

(** ** The transaction list *)

Section ReducerFacts.
Import TransactionContext.

Lemma keep_Forall {A} (P : A -> Prop) (p : A -> bool) (l : list A) :
  Forall P l -> Forall P (keep p l).
Proof.
  induction 1 as [|x l Hx Hl IH]; simpl; [constructor|].
  destruct (p x); [constructor; assumption|assumption].
Qed.

Lemma keep_holds {A} (p : A -> bool) (l : list A) :
  Forall (fun x => p x = true) (keep p l).
Proof.
  induction l as [|x l IH]; simpl; [constructor|].
  destruct (p x) eqn:Hp; [constructor; assumption|assumption].
Qed.

Lemma reducer_keeps_pending (state : TransactionState) (action : TransactionAction) :
  Forall (fun tx => status tx = Some pending) (pendingList state) ->
  Forall (fun tx => status tx = Some pending)
    (pendingList (transactionReducer state action)).
Proof.
  intros Hinv. destruct action as [payload|payloadId updates|payloadId|]; simpl.
  - case_bool_decide as Hp; [constructor; assumption|assumption].
  - apply Forall_app. split; [apply keep_Forall, Hinv|].
    case_bool_decide as Hp; [|constructor].
    constructor; [|constructor].
    destruct (find (hasId payloadId) (transactions state)); simpl; [|exact Hp].
    rewrite Hp. reflexivity.
  - apply keep_Forall, Hinv.
  - constructor.
Qed.

(** X21.  After any sequence of actions every entry of the [pending] list has
    status [pending]. *)
Theorem pending_list_all_pending (actions : list TransactionAction) :
  Forall (fun tx => status tx = Some pending) (pendingList (dispatchAll actions)).
Proof.
  unfold dispatchAll.
  induction actions as [|action actions IH] using rev_ind; [constructor|].
  rewrite fold_left_app. simpl. apply reducer_keeps_pending, IH.
Qed.

(** X22.  An update that does not set the status (one that only records the
    hash, say) removes the transaction from the [pending] list while leaving
    every status in the [transactions] list as it was: a transaction can be
    pending and absent from [pending]. *)
Theorem update_without_status_unlists (state : TransactionState)
    (payloadId : string) (updates : Transaction) :
  status updates = None ->
  let state' := transactionReducer state (UPDATE_TRANSACTION payloadId updates) in
  Forall (fun tx => id tx <> Some payloadId) (pendingList state')
  /\ map status (transactions state') = map status (transactions state).
Proof.
  intros Hs. cbv zeta. simpl. rewrite Hs. simpl. rewrite app_nil_r. split.
  - eapply Forall_impl; [apply keep_holds|].
    intros tx Htx. unfold hasId in Htx. simpl in Htx.
    apply negb_true_iff, bool_decide_eq_false_1 in Htx. exact Htx.
  - rewrite map_map. apply map_ext. intros tx.
    destruct (hasId payloadId tx); [|reflexivity].
    unfold spread. simpl. rewrite Hs. reflexivity.
Qed.

Lemma update_without_status_witness :
  let tx := mkTransaction (Some "tx-1") None (Some pending) None (Some "transfer") (Some 1%Z) in
  let state := transactionReducer initialState (ADD_TRANSACTION tx) in
  let updates := mkTransaction None (Some "0x01") None None None None in
  let state' := transactionReducer state (UPDATE_TRANSACTION "tx-1" updates) in
  Forall (fun tx => id tx <> Some "tx-1") (pendingList state')
  /\ map status (transactions state') = map status (transactions state).
Proof.
  apply (update_without_status_unlists
           (transactionReducer initialState
              (ADD_TRANSACTION
                 (mkTransaction (Some "tx-1") None (Some pending) None (Some "transfer")
                    (Some 1%Z))))
           "tx-1" (mkTransaction None (Some "0x01") None None None None)).
  reflexivity.
Defined.

(** X23.  After [REMOVE_TRANSACTION] no transaction with that id is left in
    either list, and the transactions with other ids are kept in order. *)
Theorem remove_leaves_none (state : TransactionState) (payloadId : string) :
  let state' := transactionReducer state (REMOVE_TRANSACTION payloadId) in
  Forall (fun tx => id tx <> Some payloadId) (transactions state')
  /\ Forall (fun tx => id tx <> Some payloadId) (pendingList state')
  /\ transactions state'
     = List.filter (fun tx => negb (hasId payloadId tx)) (transactions state).
Proof.
  cbv zeta. simpl.
  assert (Hno : forall l, Forall (fun tx => id tx <> Some payloadId)
                            (keep (fun tx => negb (hasId payloadId tx)) l)).
  { intros l. eapply Forall_impl; [apply keep_holds|].
    intros tx Htx. unfold hasId in Htx. simpl in Htx.
    apply negb_true_iff, bool_decide_eq_false_1 in Htx. exact Htx. }
  split; [apply Hno|]. split; [apply Hno|].
  induction (transactions state) as [|tx l IH]; simpl; [reflexivity|].
  destruct (negb (hasId payloadId tx)); rewrite IH; reflexivity.
Qed.

End ReducerFacts.


(** ** Runtime protections *)

Section ProtectionFacts.
Import Protection.

Lemma attemptsOf_record_same (identifier : string) (m : gmap string nat) :
  attemptsOf identifier (recordFailedAttempt identifier m) = attemptsOf identifier m + 1.
Proof. unfold attemptsOf, recordFailedAttempt. rewrite lookup_insert_eq. reflexivity. Qed.

Lemma attemptsOf_record_other (identifier other : string) (m : gmap string nat) :
  other <> identifier ->
  attemptsOf other (recordFailedAttempt identifier m) = attemptsOf other m.
Proof.
  intros Hne. unfold attemptsOf, recordFailedAttempt.
  rewrite lookup_insert_ne by congruence. reflexivity.
Qed.

(** X24.  [SecurityMonitor] counts failed attempts per identifier: after [n]
    recorded failures the count has grown by [n] and the counts of all other
    identifiers are untouched; starting from no record an identifier is
    blocked exactly from the fifth failure on; and clearing an identifier
    unblocks it, whatever its count was. *)
Theorem blocked_from_fifth_failure (identifier : string) (n : nat) (m : gmap string nat) :
  attemptsOf identifier (Nat.iter n (recordFailedAttempt identifier) m)
    = attemptsOf identifier m + n
  /\ isBlocked identifier (Nat.iter n (recordFailedAttempt identifier) ∅) = (5 <=? n)%nat
  /\ (forall other, other <> identifier ->
        attemptsOf other (Nat.iter n (recordFailedAttempt identifier) m)
        = attemptsOf other m)
  /\ isBlocked identifier
       (clearFailedAttempts identifier (Nat.iter n (recordFailedAttempt identifier) m))
     = false.
Proof.
  assert (Hcount : forall m', attemptsOf identifier (Nat.iter n (recordFailedAttempt identifier) m')
                              = attemptsOf identifier m' + n).
  { intros m'. induction n as [|n IH]; simpl; [lia|].
    rewrite attemptsOf_record_same, IH. lia. }
  split; [apply Hcount|]. split; [|split].
  - unfold isBlocked, MAX_ATTEMPTS. rewrite Hcount.
    unfold attemptsOf. rewrite lookup_empty. reflexivity.
  - intros other Hne. induction n as [|n IH]; simpl; [reflexivity|].
    rewrite attemptsOf_record_other by exact Hne. apply IH.
    intros m'. specialize (Hcount m'). simpl in Hcount.
    rewrite attemptsOf_record_same in Hcount. lia.
  - unfold isBlocked, clearFailedAttempts, attemptsOf.
    rewrite lookup_delete_eq. reflexivity.
Qed.

Lemma append_cons (x : ascii) (a b : string) :
  (String x a ++ b = String x (a ++ b))%string.
Proof. reflexivity. Qed.

Lemma append_assoc (a b c : string) : ((a ++ b) ++ c = a ++ (b ++ c))%string.
Proof.
  induction a as [|x a IH]; [reflexivity|].
  rewrite !append_cons, IH. reflexivity.
Qed.

Lemma replaceChar_app (c : ascii) (by_ a b : string) :
  replaceChar c by_ (a ++ b) = (replaceChar c by_ a ++ replaceChar c by_ b)%string.
Proof.
  induction a as [|x a IH]; [reflexivity|].
  rewrite append_cons. cbn [replaceChar].
  destruct (Ascii.eqb x c); rewrite IH; [rewrite append_assoc|]; reflexivity.
Qed.

Lemma escapeHtml_cons (a : ascii) (rest : string) :
  escapeHtml (String a rest) = (escapeChar a ++ escapeHtml rest)%string.
Proof.
  unfold escapeHtml, escapeChar. cbn [replaceChar].
  destruct (Ascii.eqb a ampersand) eqn:E1.
  { rewrite !replaceChar_app. reflexivity. }
  cbn [replaceChar]. destruct (Ascii.eqb a lessThan) eqn:E2.
  { rewrite !replaceChar_app. reflexivity. }
  cbn [replaceChar]. destruct (Ascii.eqb a greaterThan) eqn:E3.
  { rewrite !replaceChar_app. reflexivity. }
  cbn [replaceChar]. destruct (Ascii.eqb a doubleQuote) eqn:E4.
  { rewrite !replaceChar_app. reflexivity. }
  cbn [replaceChar]. destruct (Ascii.eqb a apostrophe) eqn:E5; reflexivity.
Qed.

Lemma noneOf_app (bad : ascii -> bool) (a b : string) :
  noneOf bad (a ++ b) = noneOf bad a && noneOf bad b.
Proof.
  induction a as [|x a IH]; [reflexivity|].
  rewrite append_cons. cbn [noneOf].
  rewrite IH, andb_assoc. reflexivity.
Qed.

Lemma escapeChar_safe (c : ascii) : noneOf isInjectionChar (escapeChar c) = true.
Proof.
  unfold escapeChar.
  destruct (Ascii.eqb c ampersand); [reflexivity|].
  destruct (Ascii.eqb c lessThan) eqn:E2; [reflexivity|].
  destruct (Ascii.eqb c greaterThan) eqn:E3; [reflexivity|].
  destruct (Ascii.eqb c doubleQuote) eqn:E4; [reflexivity|].
  destruct (Ascii.eqb c apostrophe) eqn:E5; [reflexivity|].
  simpl. unfold isInjectionChar. rewrite E2, E3, E4, E5. reflexivity.
Qed.

(** X25.  [escapeHtml] escapes each character of its input once: the five
    successive replacements amount to one pass in which an ampersand, a
    less-than sign, a greater-than sign, a double quote and an apostrophe
    become their entities and every other character stays; the ampersands the
    entities bring in are not escaped again.  The result holds no less-than
    sign, greater-than sign, double quote or apostrophe. *)
Theorem escapeHtml_single_pass (unsafe : string) :
  escapeHtml unsafe = escapeEach unsafe
  /\ noneOf isInjectionChar (escapeHtml unsafe) = true.
Proof.
  assert (H : escapeHtml unsafe = escapeEach unsafe).
  { induction unsafe as [|a rest IH]; [reflexivity|].
    rewrite escapeHtml_cons, IH. reflexivity. }
  split; [exact H|]. rewrite H. clear H.
  induction unsafe as [|a rest IH]; [reflexivity|].
  cbn [escapeEach]. rewrite noneOf_app, escapeChar_safe. exact IH.
Qed.

Lemma removeInjectionChars_safe (s : string) :
  noneOf isInjectionChar (removeInjectionChars s) = true.
Proof.
  induction s as [|c s IH]; [reflexivity|]. simpl.
  destruct (isInjectionChar c) eqn:Hc; [exact IH|]. simpl. rewrite Hc, IH. reflexivity.
Qed.

Lemma trimStart_safe (bad : ascii -> bool) (s : string) :
  noneOf bad s = true -> noneOf bad (trimStart s) = true.
Proof.
  induction s as [|c s IH]; [reflexivity|]. simpl. intros H.
  apply andb_true_iff in H. destruct H as [Hc Hs].
  destruct (isWhiteSpace c); [apply IH, Hs|]. simpl. rewrite Hc, Hs. reflexivity.
Qed.

Lemma trimEnd_safe (bad : ascii -> bool) (s : string) :
  noneOf bad s = true -> noneOf bad (trimEnd s) = true.
Proof.
  induction s as [|c s IH]; [reflexivity|]. simpl. intros H.
  apply andb_true_iff in H. destruct H as [Hc Hs]. specialize (IH Hs).
  destruct (trimEnd s) as [|d kept].
  - destruct (isWhiteSpace c); [reflexivity|]. simpl. rewrite Hc. reflexivity.
  - simpl in *. rewrite Hc. exact IH.
Qed.

Lemma substring_prefix_safe (bad : ascii -> bool) (n : nat) (s : string) :
  noneOf bad s = true -> noneOf bad (String.substring 0 n s) = true.
Proof.
  revert s. induction n as [|n IH]; intros s H.
  - destruct s; reflexivity.
  - destruct s as [|c s]; [reflexivity|]. simpl in *.
    apply andb_true_iff in H. destruct H as [Hc Hs].
    rewrite Hc. simpl. apply IH, Hs.
Qed.

Lemma substring_prefix_length (n : nat) (s : string) :
  String.length (String.substring 0 n s) <= n.
Proof.
  revert s. induction n as [|n IH]; intros s.
  - destruct s; simpl; lia.
  - destruct s as [|c s]; simpl; [lia|]. specialize (IH s). lia.
Qed.

(** X26.  Whatever the input, [sanitizeUserInput] returns at most 1000
    characters, none of which is a less-than sign, a greater-than sign, an
    apostrophe or a double quote. *)
Theorem sanitizeUserInput_bounded (input : string) :
  String.length (sanitizeUserInput input) <= 1000
  /\ noneOf isInjectionChar (sanitizeUserInput input) = true.
Proof.
  unfold sanitizeUserInput, trim. split.
  - apply substring_prefix_length.
  - apply substring_prefix_safe, trimEnd_safe, trimStart_safe, removeInjectionChars_safe.
Qed.

End ProtectionFacts.
